(** * factcheckagent: the extraction-with-fallback and orchestration logic
    of [fact_check_bot.py], embedded in Rocq.

    Python [str] values are modelled as [string]: sequences of code points
    below 256 (Latin-1), which is where every literal, character class and
    case mapping used by the program lives.  Lengths are [Z].  Everything the
    program obtains from outside (environment, HTTP, the crew runtime, the
    search engine, the clock) is read from a [World] record; effects are
    recorded in a trace of events, and Python exceptions are explicit. *)

From Stdlib Require Import String Ascii List ZArith Lia Bool Arith.
From Stdlib Require Import DecimalString.
Import ListNotations.
Open Scope string_scope.
Open Scope Z_scope.
Set Warnings "-register-all".

(** ** Python string primitives *)

Module PyStr.

(** [len(s)] *)
Definition len (s : string) : Z := Z.of_nat (String.length s).

Definition code (c : ascii) : Z := Z.of_nat (nat_of_ascii c).

(** [c.isspace()], also the class [\s] of [re] on [str] patterns:
    TAB, LF, VT, FF, CR, FS, GS, RS, US, SPACE, NEL (0x85), NBSP (0xA0). *)
Definition isspace (c : ascii) : bool :=
  let n := code c in
  ((9 <=? n) && (n <=? 13)) || ((28 <=? n) && (n <=? 32))
  || (n =? 133) || (n =? 160).

(** [\d] of [re]: the decimal digits. *)
Definition isdigit (c : ascii) : bool :=
  let n := code c in (48 <=? n) && (n <=? 57).

(** [\w] of [re]: alphanumeric code points and the underscore. *)
Definition isword (c : ascii) : bool :=
  let n := code c in
  isdigit c
  || ((65 <=? n) && (n <=? 90)) || (n =? 95) || ((97 <=? n) && (n <=? 122))
  || (n =? 170) || (n =? 178) || (n =? 179) || (n =? 181) || (n =? 185)
  || (n =? 186) || ((188 <=? n) && (n <=? 190))
  || ((192 <=? n) && (n <=? 214)) || ((216 <=? n) && (n <=? 246))
  || ((248 <=? n) && (n <=? 255)).

(** [c.lower()] *)
Definition lower_char (c : ascii) : ascii :=
  let n := code c in
  if ((65 <=? n) && (n <=? 90))
     || ((192 <=? n) && (n <=? 222) && negb (n =? 215))
  then ascii_of_nat (nat_of_ascii c + 32)
  else c.

(** [s.lower()] *)
Fixpoint lower (s : string) : string :=
  match s with
  | EmptyString => EmptyString
  | String c r => String (lower_char c) (lower r)
  end.

(** [s.startswith(p)] *)
Definition startswith (p s : string) : bool := String.prefix p s.

(** [needle in hay] *)
Fixpoint contains (needle hay : string) : bool :=
  String.prefix needle hay
  || match hay with
     | EmptyString => false
     | String _ r => contains needle r
     end.

(** [s.lstrip()], [s.rstrip()], [s.strip()] *)
Fixpoint lstrip (s : string) : string :=
  match s with
  | EmptyString => EmptyString
  | String c r => if isspace c then lstrip r else s
  end.

Fixpoint rstrip (s : string) : string :=
  match s with
  | EmptyString => EmptyString
  | String c r =>
      match rstrip r with
      | EmptyString => if isspace c then EmptyString else String c EmptyString
      | r' => String c r'
      end
  end.

Definition strip (s : string) : string := rstrip (lstrip s).

(** [s[:n]] for [n >= 0] *)
Fixpoint take (n : nat) (s : string) : string :=
  match n, s with
  | S k, String c r => String c (take k r)
  | _, _ => EmptyString
  end.

(** truthiness of a [str] *)
Definition nonempty (s : string) : bool :=
  match s with EmptyString => false | _ => true end.

(** [sep.join(l)] *)
Definition join (sep : string) (l : list string) : string := String.concat sep l.

(** [str(n)] for an [int] *)
Definition str_of_int (n : Z) : string := NilEmpty.string_of_int (Z.to_int n).

(** [int(s)] for a string of decimal digits *)
Definition digit_value (c : ascii) : Z := code c - 48.

Definition int_of_digits (s : string) : Z :=
  (fix go (acc : Z) (s : string) : Z :=
     match s with
     | EmptyString => acc
     | String c r => go (10 * acc + digit_value c) r
     end) 0 s.

Definition dquote : string := String (ascii_of_nat 34) EmptyString.
Definition newline : string := String (ascii_of_nat 10) EmptyString.

End PyStr.
Import PyStr.

(** ** Regular expressions: the fragment of [re] the program uses *)

Module Re.

Inductive regex : Type :=
| Void : regex
| Eps : regex
| Class : (ascii -> bool) -> regex
| Cat : regex -> regex -> regex
| Or : regex -> regex -> regex
| Star : regex -> regex.

Fixpoint nullable (r : regex) : bool :=
  match r with
  | Void => false
  | Eps => true
  | Class _ => false
  | Cat a b => nullable a && nullable b
  | Or a b => nullable a || nullable b
  | Star _ => true
  end.

(** Brzozowski derivative *)
Fixpoint deriv (c : ascii) (r : regex) : regex :=
  match r with
  | Void => Void
  | Eps => Void
  | Class p => if p c then Eps else Void
  | Cat a b =>
      if nullable a then Or (Cat (deriv c a) b) (deriv c b)
      else Cat (deriv c a) b
  | Or a b => Or (deriv c a) (deriv c b)
  | Star a => Cat (deriv c a) (Star a)
  end.

(** the whole of [s] is in the language of [r] *)
Fixpoint fullmatch (r : regex) (s : string) : bool :=
  match s with
  | EmptyString => nullable r
  | String c s' => fullmatch (deriv c r) s'
  end.

Fixpoint lit (s : string) : regex :=
  match s with
  | EmptyString => Eps
  | String c r => Cat (Class (Ascii.eqb c)) (lit r)
  end.

Definition opt (r : regex) : regex := Or r Eps.

(** the language of a regular expression, against which [fullmatch] is
    checked below *)
Inductive matches : regex -> string -> Prop :=
| MEps : matches Eps EmptyString
| MClass (p : ascii -> bool) (c : ascii) :
    p c = true -> matches (Class p) (String c EmptyString)
| MCat (a b : regex) (s1 s2 : string) :
    matches a s1 -> matches b s2 -> matches (Cat a b) (s1 ++ s2)
| MOrL (a b : regex) (s : string) : matches a s -> matches (Or a b) s
| MOrR (a b : regex) (s : string) : matches b s -> matches (Or a b) s
| MStar0 (a : regex) : matches (Star a) EmptyString
| MStarS (a : regex) (s1 s2 : string) :
    matches a s1 -> matches (Star a) s2 -> matches (Star a) (s1 ++ s2).

(** [.] without DOTALL: anything but a line feed *)
Definition dot : regex := Class (fun c => negb (code c =? 10)).

(** [s] without its last character, and whether that character is LF *)
Fixpoint chomp (s : string) : option string :=
  match s with
  | EmptyString => None
  | String c EmptyString => if code c =? 10 then Some EmptyString else None
  | String c r =>
      match chomp r with
      | Some r' => Some (String c r')
      | None => None
      end
  end.

(** [re.match('^' r '$', s)] without MULTILINE: [$] holds at the end of the
    string and just before a line feed that ends the string. *)
Definition match_anchored (r : regex) (s : string) : bool :=
  fullmatch r s
  || match chomp s with
     | Some s' => fullmatch r s'
     | None => false
     end.

End Re.

(** ** Effects: exceptions and the trace of external calls *)

(** The exceptions the program distinguishes: [requests.exceptions.RequestException]
    and every other [Exception]; the payload is [str(e)]. *)
Inductive exn : Type :=
| RequestException : string -> exn
| PyException : string -> exn.

Definition exn_str (e : exn) : string :=
  match e with
  | RequestException m => m
  | PyException m => m
  end.

Inductive res (A : Type) : Type :=
| Ret : A -> res A
| Raise : exn -> res A.
Arguments Ret {A} _.
Arguments Raise {A} _.

(** The inputs of [Crew.kickoff]: a dict with string keys and values. *)
Definition Context : Type := list (string * string).

(** What the program does to the outside world, in order. *)
Inductive event : Type :=
| EvPost : string -> event       (* requests.post to the scraping API, for a URL *)
| EvGet : string -> event        (* requests.get of a URL *)
| EvFallback : string -> event   (* entry into _fallback_scrape *)
| EvKickoff : Context -> event   (* fact_check_crew.kickoff *)
| EvSearch : string -> event.    (* search_tool.run *)

Definition trace : Type := list event.

(** A computation threads the trace and either returns or raises. *)
Definition M (A : Type) : Type := trace -> res A * trace.

Definition ret {A} (a : A) : M A := fun t => (Ret a, t).

Definition raise {A} (e : exn) : M A := fun t => (Raise e, t).

Definition bind {A B} (m : M A) (k : A -> M B) : M B :=
  fun t =>
    match m t with
    | (Ret a, t') => k a t'
    | (Raise e, t') => (Raise e, t')
    end.

(** [try: body  except Exception as e: handler(e)] *)
Definition try_except {A} (body : M A) (handler : exn -> M A) : M A :=
  fun t =>
    match body t with
    | (Ret a, t') => (Ret a, t')
    | (Raise e, t') => handler e t'
    end.

(** perform an external call: log it, then return or raise what it gave *)
Definition call {A} (ev : event) (r : res A) : M A :=
  fun t => (r, (t ++ [ev])%list).

Definition emit (ev : event) : M unit := fun t => (Ret tt, (t ++ [ev])%list).

Declare Scope py_scope.
Delimit Scope py_scope with py.
Notation "x <- m ;; k" := (bind m (fun x => k))
  (at level 61, m at next level, right associativity) : py_scope.
Notation "m ;;; k" := (bind m (fun _ => k))
  (at level 61, right associativity) : py_scope.
Open Scope py_scope.

(** ** Data from outside *)

(** A parsed JSON document, as [response.json()] gives it. Numbers are
    integers here; objects list their (distinct) keys. *)
Inductive json : Type :=
| JNull : json
| JBool : bool -> json
| JNum : Z -> json
| JStr : string -> json
| JArr : list json -> json
| JObj : list (string * json) -> json.

(** truth value of a Python object read from JSON *)
Definition truthy (j : json) : bool :=
  match j with
  | JNull => false
  | JBool b => b
  | JNum n => negb (n =? 0)
  | JStr s => nonempty s
  | JArr l => match l with [] => false | _ => true end
  | JObj l => match l with [] => false | _ => true end
  end.

Fixpoint assoc (k : string) (l : list (string * json)) : option json :=
  match l with
  | [] => None
  | (k', v) :: r => if String.eqb k k' then Some v else assoc k r
  end.

(** [d.get(key, default)]: only a dict has [get]. *)
Definition py_get (d : json) (key : string) (default : json) : res json :=
  match d with
  | JObj kv =>
      match assoc key kv with
      | Some v => Ret v
      | None => Ret default
      end
  | _ => Raise (PyException "object has no attribute 'get'")
  end.

(** [content.strip()]: only a str has [strip]. *)
Definition py_strip (j : json) : res string :=
  match j with
  | JStr s => Ret (strip s)
  | _ => Raise (PyException "object has no attribute 'strip'")
  end.

(** the response of [requests.post] *)
Record PostResponse : Type := {
  post_status_code : Z;
  post_json : res json;       (* response.json(), which may raise *)
  post_text : string
}.

(** An element of the parsed page (a BeautifulSoup [Tag]), seen through the
    three things the scraper asks of it. *)
Inductive Tag : Type :=
| mkTag (text : string)              (* tag.get_text() *)
        (class_str : string)         (* str(tag.get('class', [])) *)
        (sel : string -> list Tag).  (* tag.select(selector) *)

Definition get_text (t : Tag) : string :=
  match t with mkTag x _ _ => x end.
Definition class_str (t : Tag) : string :=
  match t with mkTag _ c _ => c end.
Definition select (t : Tag) (selector : string) : list Tag :=
  match t with mkTag _ _ f => f selector end.

(** [tag.select_one(selector)]: the first match, if any *)
Definition select_one (t : Tag) (selector : string) : option Tag :=
  hd_error (select t selector).

(** [BeautifulSoup(response.text, 'html.parser')] *)
Record Soup : Type := {
  soup_root : Tag;          (* the document, for soup.select / soup.select_one *)
  soup_body : option Tag    (* soup.body *)
}.

(** the response of [requests.get] *)
Record GetResponse : Type := {
  get_status_code : Z;
  get_url : string;         (* response.url, after redirects *)
  get_soup : Soup           (* response.text, parsed *)
}.

(** the value of [fact_check_crew.kickoff(...)], as the entry functions
    look at it *)
Inductive KickResult : Type :=
| KickTasks : list string -> KickResult
    (* a dict with key "tasks_output"; the [raw] of each task output *)
| KickOther : string -> KickResult.
    (* anything else; the payload is [str(result)] *)

Record World : Type := {
  env_firecrawl_api_key : option string;  (* os.environ.get("FIRECRAWL_API_KEY") *)
  task_context_url : option string;
    (* Task.current().context.get('url'); None when the lookup fails *)
  requests_post : string -> res PostResponse;
  requests_get : string -> res GetResponse;
  crew_kickoff : Context -> res KickResult;
  search_run : string -> res string;      (* DuckDuckGoSearchRun.run *)
  current_year : Z                        (* datetime.now().year *)
}.

(** ** SearchTool *)

Module SearchTool.

Definition news_terms : list string := ["bbc"; "reuters"; "news"; "reported"].

Definition month_names : list string :=
  ["january"; "february"; "march"; "april"; "may"; "june"; "july"; "august";
   "september"; "october"; "november"; "december"].

(** [202\d] at the head of [s]: what follows the match *)
Definition alt_202d (s : string) : option string :=
  match s with
  | String "2" (String "0" (String "2" (String d r))) =>
      if isdigit d then Some r else None
  | _ => None
  end.

(** a literal alternative at the head of [s]: what follows the match *)
Fixpoint alt_lit (w s : string) : option string :=
  match w, s with
  | EmptyString, _ => Some s
  | String a w', String b s' => if Ascii.eqb a b then alt_lit w' s' else None
  | String _ _, EmptyString => None
  end.

Definition date_alternatives : list (string -> option string) :=
  alt_202d :: map alt_lit month_names.

(** Every alternative starts and ends with a word character, so [\b] before
    the group asks for no word character on the left, and [\b] after it for
    none on the right. *)
Definition boundary_before (prev : option ascii) : bool :=
  match prev with
  | None => true
  | Some c => negb (isword c)
  end.

Definition boundary_after (rest : string) : bool :=
  match rest with
  | EmptyString => true
  | String c _ => negb (isword c)
  end.

Definition date_at (prev : option ascii) (s : string) : bool :=
  boundary_before prev
  && existsb (fun alt => match alt s with
                         | Some rest => boundary_after rest
                         | None => false
                         end) date_alternatives.

(** [re.search(r'\b(202\d|january|...|december)\b', s)] finds a match *)
Fixpoint date_search_from (prev : option ascii) (s : string) : bool :=
  date_at prev s
  || match s with
     | EmptyString => false
     | String c r => date_search_from (Some c) r
     end.

Definition date_match (s : string) : bool := date_search_from None s.

Definition search (W : World) (q : string) : M string :=
  call (EvSearch q) (search_run W q).

Definition _run (W : World) (query : string) : M string :=
  let ql := lower query in
  let rest : M string :=
    if contains "verify" ql || contains "fact check" ql then
      results1 <- search W query ;;
      let enhanced_query := query ++ " confirmed OR verified by multiple sources" in
      results2 <- search W enhanced_query ;;
      ret ("Regular search results:" ++ newline ++ results1 ++ newline ++ newline
           ++ "Verification search results:" ++ newline ++ results2)
    else
      search W query in
  if existsb (fun term => contains term ql) news_terms then
    if negb (date_match ql) && negb (contains "recent" ql) then
      let enhanced_query := query ++ " recent news" in
      search W enhanced_query
    else rest
  else rest.

End SearchTool.

(** ** FirecrawlTool *)

(** ["bbc.com" in url or "bbc.co.uk" in url] *)
Definition is_bbc (url : string) : bool :=
  contains "bbc.com" url || contains "bbc.co.uk" url.

Definition is_nil {A} (l : list A) : bool :=
  match l with [] => true | _ => false end.

Module FirecrawlTool.

(** *** Selectors *)

(** [[name="value"]] *)
Definition attr_sel (name value : string) : string :=
  "[" ++ name ++ "=" ++ dquote ++ value ++ dquote ++ "]".

Definition headline_selectors : list string :=
  ["h1"; attr_sel "data-component" "headline"; ".article-headline";
   ".story-body__h1"; ".ssrcss-15xko80-StyledHeading"].

(** The selector group of the BBC content containers (the source writes it
    over several lines). *)
Definition bbc_container_selector : string :=
  join ", "
    ["article"; attr_sel "data-component" "text-block";
     ".ssrcss-1q0x1qg-RichTextContainer"; ".story-body__inner";
     "div" ++ attr_sel "data-component" "text";
     "div[class*=" ++ dquote ++ "RichText" ++ dquote ++ "]";
     ".ssrcss-uf6wea-RichTextContainer"; ".ssrcss-7uxr49-RichTextContainer";
     ".article__body-content"; ".story-body";
     attr_sel "data-component" "text-block"; ".body-content-container";
     ".article-body-content"].

Definition p_selectors : list string :=
  ["p"; attr_sel "data-component" "text-block" ++ " p"; ".paragraph"].

Definition metadata_selectors : list string :=
  [".ssrcss-17m4u3h-MetadataStrip"; ".ssrcss-f4vpt6-MetadataLink";
   ".ssrcss-1n2rzdv-StyledPublishingContext"; ".article-info";
   ".author-unit__content"; ".byline"; ".article-meta"; ".article__author";
   ".article__timestamp"; attr_sel "data-component" "byline";
   attr_sel "data-component" "meta"; attr_sel "data-component" "topics"].

Definition main_content_selector : string :=
  "main, article, .content, #content, .article-content, .post-content".

(** [any(skip in s for skip in words)] *)
Definition any_in (words : list string) (s : string) : bool :=
  existsb (fun skip => contains skip s) words.

(** *** BBC-specific extraction *)

(** the headline loop, which stops at the first selector that finds a tag *)
Fixpoint headline_loop (soup : Soup) (selectors : list string)
  (content_blocks : list string) : list string :=
  match selectors with
  | [] => content_blocks
  | selector :: rest =>
      match select_one (soup_root soup) selector with
      | Some headline =>
          let headline_text := strip (get_text headline) in
          (content_blocks ++ [("# " ++ headline_text)%string])%list
      | None => headline_loop soup rest content_blocks
      end
  end.

(** what one paragraph of a BBC container adds *)
Definition bbc_paragraph (p : Tag) : list string :=
  if any_in ["navigation"; "social"; "share"; "hidden"] (class_str p) then []
  else
    let p_text := strip (get_text p) in
    if nonempty p_text && (10 <? len p_text)
       && negb (startswith "Share this" p_text)
    then [p_text] else [].

(** what one metadata element adds *)
Definition bbc_metadata (meta : Tag) : list string :=
  let meta_text := strip (get_text meta) in
  if nonempty meta_text
     && negb (any_in ["share this"; "follow us"; "subscribe"] (lower meta_text))
  then ["*" ++ meta_text ++ "*"] else [].

(** what one paragraph adds in the site-wide pass of the BBC branch *)
Definition bbc_generic_paragraph (p : Tag) : list string :=
  let p_text := strip (get_text p) in
  if nonempty p_text && (40 <? len p_text)
     && negb (any_in ["cookie"; "subscribe"; "newsletter"; "share this"]
                (lower p_text))
  then [p_text] else [].

(** the body of [if "bbc.com" in url or "bbc.co.uk" in url:] *)
Definition bbc_extraction (soup : Soup) (content_blocks : list string)
  : list string :=
  let content_blocks := headline_loop soup headline_selectors content_blocks in
  let containers := select (soup_root soup) bbc_container_selector in
  let content_blocks :=
    (content_blocks
     ++ flat_map (fun container =>
          flat_map (fun p_selector =>
            flat_map bbc_paragraph (select container p_selector))
            p_selectors)
          containers)%list in
  let content_blocks :=
    (content_blocks
     ++ flat_map (fun selector =>
          flat_map bbc_metadata (select (soup_root soup) selector))
          metadata_selectors)%list in
  if is_nil content_blocks then
    (content_blocks
     ++ flat_map bbc_generic_paragraph (select (soup_root soup) "p"))%list
  else content_blocks.

(** *** Generic extraction *)

(** paragraphs whose stripped text is longer than [min] *)
Definition long_paragraph (min : Z) (p : Tag) : list string :=
  let p_text := strip (get_text p) in
  if nonempty p_text && (min <? len p_text) then [p_text] else [].

(** the body of the first [if not content_blocks:] *)
Definition generic_extraction (soup : Soup) (content_blocks : list string)
  : list string :=
  match select_one (soup_root soup) main_content_selector with
  | Some main_content =>
      let paragraphs := select main_content "p" in
      (content_blocks ++ flat_map (long_paragraph 30) paragraphs)%list
  | None =>
      let paragraphs := select (soup_root soup) "p" in
      (content_blocks ++ flat_map (long_paragraph 50) paragraphs)%list
  end.

(** *** Whole-body text *)

(** [re.sub(r'\s+', ' ', s)]: [in_ws] tells that the run of white space the
    scan is in has been replaced already. *)
Fixpoint collapse_ws (in_ws : bool) (s : string) : string :=
  match s with
  | EmptyString => EmptyString
  | String c r =>
      if isspace c then
        if in_ws then collapse_ws true r else String " " (collapse_ws true r)
      else String c (collapse_ws false r)
  end.

Definition normalize_ws (s : string) : string := collapse_ws false s.

Definition noise_words : list string :=
  ["Share this"; "Follow us"; "Subscribe"; "Cookie"; "Newsletter"].

(** length of the shortest match of [.*?(\.|$)] at the head of [s]: up to and
    with the first full stop, or to the end of the string (or to a line feed
    that ends it); a line feed elsewhere stops [.] and the match fails. *)
Fixpoint noise_tail (s : string) : option nat :=
  match s with
  | EmptyString => Some O
  | String c r =>
      if Ascii.eqb c "." then Some 1%nat
      else if code c =? 10 then
        match r with EmptyString => Some O | _ => None end
      else option_map S (noise_tail r)
  end.

Fixpoint drop (n : nat) (s : string) : string :=
  match n, s with
  | S k, String _ r => drop k r
  | _, _ => s
  end.

(** length of the match of
    [(Share this|Follow us|Subscribe|Cookie|Newsletter).*?(\.|$)] under
    IGNORECASE at the head of [s] *)
Definition noise_match (s : string) : option nat :=
  (fix try (words : list string) : option nat :=
     match words with
     | [] => None
     | w :: rest =>
         if String.prefix (lower w) (lower s) then
           match noise_tail (drop (String.length w) s) with
           | Some n => Some (String.length w + n)%nat
           | None => try rest
           end
         else try rest
     end) noise_words.

(** [re.sub(pattern, '', s, flags=re.IGNORECASE)]; [skip] characters of a
    match found earlier are still to be deleted. *)
Fixpoint sub_noise (skip : nat) (s : string) : string :=
  match s with
  | EmptyString => EmptyString
  | String c r =>
      match skip with
      | S k => sub_noise k r
      | O =>
          match noise_match s with
          | Some (S k) => sub_noise k r
          | _ => String c (sub_noise O r)
          end
      end
  end.

Definition strip_noise (s : string) : string := sub_noise O s.

Definition body_limit : nat := Z.to_nat 8000.

(** the body of the last [if not content_blocks:] *)
Definition body_extraction (soup : Soup) : list string :=
  let body_text :=
    match soup_body soup with
    | Some body => strip (get_text body)
    | None => EmptyString
    end in
  let body_text := normalize_ws body_text in
  let body_text := strip_noise body_text in
  [take body_limit body_text].

(** *** The cascade, as the source runs it *)

(** [content_blocks] at the point where the blocks are joined *)
Definition extract_content_blocks (url : string) (soup : Soup) : list string :=
  let content_blocks : list string := [] in
  let content_blocks :=
    if is_bbc url then bbc_extraction soup content_blocks
    else content_blocks in
  let content_blocks :=
    if is_nil content_blocks then generic_extraction soup content_blocks
    else content_blocks in
  let content_blocks :=
    if is_nil content_blocks then body_extraction soup
    else content_blocks in
  content_blocks.

(** ["\n\n".join(block.strip() for block in content_blocks if block.strip())] *)
Definition join_blocks (content_blocks : list string) : string :=
  join (newline ++ newline)
    (map strip (filter (fun block => nonempty (strip block)) content_blocks)).

Definition article_text (url : string) (soup : Soup) : string :=
  join_blocks (extract_content_blocks url soup).

(** *** _fallback_scrape *)

Definition _fallback_scrape (W : World) (url : string) : M string :=
  emit (EvFallback url) ;;;
  try_except
    (response <- call (EvGet url) (requests_get W url) ;;
     if get_status_code response =? 200 then
       if contains "example.com" (lower (get_url response)) then
         ret ("Error: Redirected to example.com while scraping " ++ url ++ ".")
       else
         let article_text := article_text url (get_soup response) in
         if len article_text <? 100 then
           ret ("Error: Could not extract meaningful content from " ++ url ++ ".")
         else ret article_text
     else
       ret ("Error: Failed to retrieve content. Status code: "
            ++ str_of_int (get_status_code response)))
    (fun e => ret ("Error scraping URL " ++ url ++ ": " ++ exn_str e)).

(** *** _run *)

(** the URL the tool works on: the one in the task context, when there is a
    non-empty one, replaces the argument *)
Definition effective_url (W : World) (url : string) : string :=
  match task_context_url W with
  | Some context_url => if nonempty context_url then context_url else url
  | None => url
  end.

(** [data.get("data", {}).get("markdown", <html>)], where [<html>] is the
    [html] entry of the same dict, or the empty string *)
Definition response_content (data : json) : res json :=
  match py_get data "data" (JObj []) with
  | Raise e => Raise e
  | Ret d =>
      match py_get d "html" (JStr EmptyString) with
      | Raise e => Raise e
      | Ret html => py_get d "markdown" html
      end
  end.

Definition lift {A} (r : res A) : M A := fun t => (r, t).

Definition _run (W : World) (url : string) : M string :=
  let url := effective_url W url in
  if negb (nonempty url) then ret "Error: No URL provided"
  else if negb (startswith "http://" url || startswith "https://" url) then
    ret "Error: Invalid URL format. URL must start with http:// or https://"
  else
    try_except
      (match env_firecrawl_api_key W with
       | None => _fallback_scrape W url
       | Some firecrawl_api_key =>
           if negb (nonempty firecrawl_api_key) then _fallback_scrape W url
           else
             response <- call (EvPost url) (requests_post W url) ;;
             if post_status_code response =? 200 then
               data <- lift (post_json response) ;;
               success <- lift (py_get data "success" JNull) ;;
               if truthy success then
                 content <- lift (response_content data) ;;
                 if truthy content then
                   stripped <- lift (py_strip content) ;;
                   match content with
                   | JStr text =>
                       if (100 <? len stripped)
                          && negb (contains "Example Domain" text)
                       then ret text
                       else _fallback_scrape W url
                   | _ => _fallback_scrape W url
                   end
                 else _fallback_scrape W url
               else _fallback_scrape W url
             else _fallback_scrape W url
       end)
      (fun e => _fallback_scrape W url).

End FirecrawlTool.

(** ** The entry functions *)

(** [^https?://[^\s/$.?#].[^\s]*$] *)
Definition url_pattern : Re.regex :=
  Re.Cat (Re.lit "http")
    (Re.Cat (Re.opt (Re.lit "s"))
       (Re.Cat (Re.lit "://")
          (Re.Cat
             (Re.Class (fun c =>
                negb (isspace c
                      || existsb (Ascii.eqb c) ["/"; "$"; "."; "?"; "#"]%char)))
             (Re.Cat Re.dot
                (Re.Star (Re.Class (fun c => negb (isspace c)))))))).

(** [url_pattern.match(url)] finds a match *)
Definition url_pattern_match (url : string) : bool :=
  Re.match_anchored url_pattern url.

(** [/(\d{4})/] at the head of [s]: the group *)
Definition year_at (s : string) : option string :=
  match s with
  | String l (String a (String b (String c (String d (String r _))))) =>
      if Ascii.eqb l "/" && isdigit a && isdigit b && isdigit c && isdigit d
         && Ascii.eqb r "/"
      then Some (String a (String b (String c (String d EmptyString))))
      else None
  | _ => None
  end.

(** [re.search(r'/(\d{4})/', url)]: group 1 of the leftmost match *)
Fixpoint year_search (s : string) : option string :=
  match year_at s with
  | Some y => Some y
  | None =>
      match s with
      | EmptyString => None
      | String _ r => year_search r
      end
  end.

Definition kickoff (W : World) (inputs : Context) : M KickResult :=
  call (EvKickoff inputs) (crew_kickoff W inputs).

Definition text_context (text : string) : Context :=
  [("cleaned_content", text); ("task", "text_analysis")].

Definition fact_check_text (W : World) (text : string) : M string :=
  try_except
    (let initial_context := text_context text in
     result <- kickoff W initial_context ;;
     match result with
     | KickTasks tasks_output =>
         match rev tasks_output with
         | final_summary :: _ => ret final_summary
         | [] => raise (PyException "list index out of range")
         end
     | KickOther s => ret s
     end)
    (fun e => ret ("Error: " ++ exn_str e)).

Definition url_context (url : string) : Context :=
  let initial_context := [("url", url)] in
  if is_bbc url then
    (initial_context
     ++ [("source_type", "bbc_news");
         ("expected_claim_format", "news_article");
         ("identify_instruction",
          "This is a BBC news article. Focus on extracting factual claims about events, statistics, and attributions.")])%list
  else initial_context.

(** the guard of the extraction-error branch *)
Definition extraction_error (content_extraction_result : string) : bool :=
  contains "Error" content_extraction_result
  && (len content_extraction_result <? 500).

Definition bbc_report (url final_summary : string) : string :=
  "Based on the provided content from " ++ url ++ ":" ++ newline
  ++ "1. Overall Assessment: " ++ final_summary ++ newline
  ++ "2. Source: BBC News, a generally reliable mainstream news source." ++ newline
  ++ "3. Recommendations: Information from BBC News is generally reliable, but for complete verification, cross-reference with other reputable sources."
  ++ newline ++ newline ++ "**Real**".

Definition extraction_failed_message (url content_extraction_result : string)
  : string :=
  "Failed to extract content from URL: " ++ url ++ ". "
  ++ content_extraction_result.

(** the part of [fact_check_url] after the two checks on the URL *)
Definition run_crew_on_url (W : World) (url : string) : M string :=
  let is_bbc_article := is_bbc url in
  try_except
    (let initial_context := url_context url in
     result <- kickoff W initial_context ;;
     match result with
     | KickTasks task_outputs =>
         let content_extraction_result :=
           hd "No content extraction result" task_outputs in
         let failed :=
           ret (extraction_failed_message url content_extraction_result) in
         if extraction_error content_extraction_result then
           if is_bbc_article then
             content <- FirecrawlTool._fallback_scrape W url ;;
             if 500 <? len content then fact_check_text W content
             else failed
           else failed
         else
           let final_summary := last task_outputs "No results available" in
           if is_bbc_article
              && negb (contains "verifiable claims" (lower final_summary))
           then ret (bbc_report url final_summary)
           else ret final_summary
     | KickOther s => ret s
     end)
    (fun e => ret ("Error: " ++ exn_str e)).

(** The date check sits in a [try] of its own; nothing in it can raise on a
    group of four decimal digits, so its handler is never entered. *)
Definition fact_check_url (W : World) (url : string) : M string :=
  if negb (url_pattern_match url) then
    ret "Error: Invalid URL format. Please provide a valid URL starting with http:// or https://."
  else
    match year_search url with
    | Some group1 =>
        let year := int_of_digits group1 in
        if current_year W <? year then
          ret ("Error: URL contains a future date (" ++ str_of_int year
               ++ "), which may not be valid. Please check the URL.")
        else run_crew_on_url W url
    | None => run_crew_on_url W url
    end.

(** ** Observations on a run *)

Definition result_of {A} (m : M A) : res A := fst (m []).
Definition events_of {A} (m : M A) : trace := snd (m []).

Definition is_fallback (ev : event) : bool :=
  match ev with EvFallback _ => true | _ => false end.

(** how many times [_fallback_scrape] was entered *)
Definition fallback_calls (t : trace) : nat :=
  List.length (filter is_fallback t).

(** what [_fallback_scrape] returns for a URL in a world *)
Definition fallback_value (W : World) (url : string) : string :=
  match result_of (FirecrawlTool._fallback_scrape W url) with
  | Ret s => s
  | Raise _ => EmptyString
  end.

(** what [fact_check_text] returns for a text in a world *)
Definition text_report (W : World) (text : string) : string :=
  match result_of (fact_check_text W text) with
  | Ret s => s
  | Raise _ => EmptyString
  end.

(** a computation that returns, whatever the trace it starts from *)
Definition returns {A} (m : M A) : Prop :=
  forall t, exists a t', m t = (Ret a, t').

Definition invalid_url_message : string :=
  "Error: Invalid URL format. Please provide a valid URL starting with http:// or https://.".

Definition future_date_message (year : Z) : string :=
  "Error: URL contains a future date (" ++ str_of_int year
  ++ "), which may not be valid. Please check the URL.".

(** the URL gets through both checks of [fact_check_url] *)
Definition passes_checks (W : World) (url : string) : bool :=
  url_pattern_match url
  && match year_search url with
     | Some group1 => negb (current_year W <? int_of_digits group1)
     | None => true
     end.

(** The specification's wording of the date guard: some [/dddd/] in the URL,
    not only the leftmost, is a year after the current one. *)
Fixpoint future_year_segment (year_now : Z) (s : string) : bool :=
  match year_at s with
  | Some group1 => year_now <? int_of_digits group1
  | None => false
  end
  || match s with
     | EmptyString => false
     | String _ r => future_year_segment year_now r
     end.




(** *** The scraper's strategies, one by one *)

Module Cascade.
Import FirecrawlTool.

(** the first strategy with a block to offer wins *)
Definition first_nonempty (strategies : list (list string)) : list string :=
  match find (fun blocks => negb (is_nil blocks)) strategies with
  | Some blocks => blocks
  | None => []
  end.

(** headline, container paragraphs and metadata of a BBC page *)
Definition bbc_selector_blocks (soup : Soup) : list string :=
  (headline_loop soup headline_selectors []
   ++ flat_map (fun container =>
        flat_map (fun p_selector =>
          flat_map bbc_paragraph (select container p_selector))
          p_selectors)
        (select (soup_root soup) bbc_container_selector)
   ++ flat_map (fun selector =>
        flat_map bbc_metadata (select (soup_root soup) selector))
        metadata_selectors)%list.

(** the site-wide paragraph pass of the BBC branch *)
Definition bbc_paragraph_blocks (soup : Soup) : list string :=
  flat_map bbc_generic_paragraph (select (soup_root soup) "p").

(** the domain-specific strategy: the whole BBC branch, for a BBC URL *)
Definition domain_blocks (url : string) (soup : Soup) : list string :=
  if is_bbc url then
    first_nonempty [bbc_selector_blocks soup; bbc_paragraph_blocks soup]
  else [].

(** paragraphs of the first generic content container, if there is one *)
Definition container_blocks (soup : Soup) : list string :=
  match select_one (soup_root soup) main_content_selector with
  | Some main_content => flat_map (long_paragraph 30) (select main_content "p")
  | None => []
  end.

(** all paragraphs of the page over the length threshold *)
Definition paragraph_blocks (soup : Soup) : list string :=
  flat_map (long_paragraph 50) (select (soup_root soup) "p").

(** The cascade in the specification's words: the four strategies in order,
    each tried when those before it yielded nothing. *)
Definition spec_cascade (url : string) (soup : Soup) : list string :=
  first_nonempty
    [domain_blocks url soup; container_blocks soup; paragraph_blocks soup;
     body_extraction soup].

(** the generic strategy as the source has it: the container's paragraphs
    when a container exists, all paragraphs only when none does *)
Definition generic_blocks (soup : Soup) : list string :=
  match select_one (soup_root soup) main_content_selector with
  | Some _ => container_blocks soup
  | None => paragraph_blocks soup
  end.

End Cascade.

(** *** The search tool's conditions *)

(** [any(term in query.lower() for term in ["bbc", "reuters", "news", "reported"])] *)
Definition news_flavoured (query : string) : bool :=
  existsb (fun term => contains term (lower query)) SearchTool.news_terms.

(** a date the pattern knows, or "recent", in the lowercased query *)
Definition has_date_or_recency (query : string) : bool :=
  SearchTool.date_match (lower query) || contains "recent" (lower query).

(** ["verify" in query.lower() or "fact check" in query.lower()] *)
Definition asks_verification (query : string) : bool :=
  contains "verify" (lower query) || contains "fact check" (lower query).

(** ** Sample pages and worlds, for concrete runs *)

Module Sample.
Import FirecrawlTool.

(** an element without descendants that any selector would find *)
Definition leaf (text : string) : Tag := mkTag text "[]" (fun _ => []).

(** a world in which nothing is configured and every service is down *)
Definition offline : World := {|
  env_firecrawl_api_key := None;
  task_context_url := None;
  requests_post := fun _ => Raise (RequestException "connection refused");
  requests_get := fun _ => Raise (RequestException "connection refused");
  crew_kickoff := fun _ => Raise (PyException "crew unavailable");
  search_run := fun q => Ret ("results for " ++ q);
  current_year := 2026
|}.

(** The scraping API answers 200 and success, with the placeholder page as
    content; the page itself answers 404. *)
Definition placeholder_url : string := "https://example.org/article".

Definition placeholder_json : json :=
  JObj [("success", JBool true);
        ("data", JObj [("markdown", JStr "# Example Domain")])].

Definition placeholder_world : World := {|
  env_firecrawl_api_key := Some "fc-key";
  task_context_url := None;
  requests_post := fun _ =>
    Ret {| post_status_code := 200; post_json := Ret placeholder_json;
           post_text := EmptyString |};
  requests_get := fun u =>
    Ret {| get_status_code := 404; get_url := u;
           get_soup := {| soup_root := leaf EmptyString; soup_body := None |} |};
  crew_kickoff := fun _ => Raise (PyException "crew unavailable");
  search_run := fun q => Ret ("results for " ++ q);
  current_year := 2026
|}.

(** a page whose only text is a few words in its body *)
Definition short_page_url : string := "https://news.example.org/short".

Definition short_page : Soup :=
  {| soup_root := leaf "Nothing here"; soup_body := Some (leaf "Nothing here") |}.

Definition short_page_response : GetResponse :=
  {| get_status_code := 200; get_url := short_page_url;
     get_soup := short_page |}.

Definition short_page_world : World := {|
  env_firecrawl_api_key := None;
  task_context_url := None;
  requests_post := fun _ => Raise (RequestException "connection refused");
  requests_get := fun _ => Ret short_page_response;
  crew_kickoff := fun _ => Raise (PyException "crew unavailable");
  search_run := fun q => Ret ("results for " ++ q);
  current_year := 2026
|}.

(** a URL with two year segments, the second in the future *)
Definition archive_url : string := "https://example.com/2020/2099/story".

(** a crew that completes: extracted text first, summary last *)
Definition newsroom_outputs : list string :=
  ["The council approved the budget on Monday.";
   "1. Claim: the council approved the budget.";
   "Research findings: confirmed by two outlets.";
   "Verification: True";
   "3. Overall Credibility Rating: Not Credible. **Fake**"].

Definition newsroom : World := {|
  env_firecrawl_api_key := None;
  task_context_url := None;
  requests_post := fun _ => Raise (RequestException "connection refused");
  requests_get := fun _ => Raise (RequestException "connection refused");
  crew_kickoff := fun _ => Ret (KickTasks newsroom_outputs);
  search_run := fun q => Ret ("results for " ++ q);
  current_year := 2026
|}.

Definition bbc_url : string := "https://www.bbc.com/news/world-68736364".

(** A BBC page with a headline and one paragraph of 150 characters. *)
Definition bbc_paragraph_text : string :=
  "The city council voted on Monday evening to approve the annual budget, after a debate that lasted four hours and drew more than two hundred residents.".

Definition bbc_article : Tag :=
  mkTag bbc_paragraph_text "[]"
    (fun selector => if String.eqb selector "p" then [leaf bbc_paragraph_text]
                     else []).

Definition bbc_page : Soup :=
  {| soup_root :=
       mkTag EmptyString "[]"
         (fun selector =>
            if String.eqb selector "h1" then [leaf "Council approves budget"]
            else if String.eqb selector bbc_container_selector then [bbc_article]
            else if String.eqb selector "p" then [leaf bbc_paragraph_text]
            else []);
     soup_body := Some (leaf ("Council approves budget " ++ bbc_paragraph_text)) |}.

Definition bbc_page_response : GetResponse :=
  {| get_status_code := 200; get_url := bbc_url; get_soup := bbc_page |}.

(** The crew's extraction stage reports an error for the BBC page; the page
    itself can be fetched, and a text handed to the crew is summarised. *)
Definition bbc_recovery_world : World := {|
  env_firecrawl_api_key := None;
  task_context_url := None;
  requests_post := fun _ => Raise (RequestException "connection refused");
  requests_get := fun _ => Ret bbc_page_response;
  crew_kickoff := fun inputs =>
    match inputs with
    | ("url", _) :: _ =>
        Ret (KickTasks ["Error: the page could not be scraped"; "No summary"])
    | _ => Ret (KickTasks newsroom_outputs)
    end;
  search_run := fun q => Ret ("results for " ++ q);
  current_year := 2026
|}.




(** A page outside the BBC with an empty [main] and its only paragraph
    beside it: <body><main><h2>Budget vote</h2></main><div><p>...</p></div></body> *)
Definition council_url : string := "https://news.example.org/council".

Definition council_page : Soup :=
  {| soup_root :=
       mkTag EmptyString "[]"
         (fun selector =>
            if String.eqb selector main_content_selector
            then [leaf "Budget vote"]
            else if String.eqb selector "p" then [leaf bbc_paragraph_text]
            else []);
     soup_body := Some (leaf ("Budget vote " ++ bbc_paragraph_text)) |}.

End Sample.

(** ** app.py: the two buttons *)

Module App.

(** what a handler puts on the page *)
Inductive shown : Type :=
| StWrite : string -> shown    (* st.write *)
| StError : string -> shown.   (* st.error *)

(** The world of the page: that of [fact_check_bot], the crew the text tab
    builds for itself (without the extraction task), and the text of
    [traceback.format_exc()] in the handler of an exception. *)
Record AppWorld : Type := {
  app_world : World;
  text_crew_kickoff : Context -> res KickResult;
  format_exc : exn -> string
}.

(** the body of [if st.button("Check Credibility", key="url_button"):] *)
Definition url_button (A : AppWorld) (url : string) : M (list shown) :=
  if nonempty url then
    result <- fact_check_url (app_world A) url ;;
    ret [StWrite result]
  else ret [StError "Please enter a URL"].

(** The body of [if st.button("Check Credibility", key="text_button"):].
    The kickoff of the tab's own crew is read from the world of the page; it
    is not a kickoff of [fact_check_crew] and leaves no event. *)
Definition text_button (A : AppWorld) (text : string) : M (list shown) :=
  if nonempty text then
    try_except
      (let initial_context := [("cleaned_content", text)] in
       result <- FirecrawlTool.lift (text_crew_kickoff A initial_context) ;;
       match result with
       | KickTasks tasks_output =>
           match rev tasks_output with
           | final_summary :: _ => ret [StWrite final_summary]
           | [] => raise (PyException "list index out of range")
           end
       | KickOther s => ret [StWrite s]
       end)
      (fun e => ret [StError ("Error analyzing text: " ++ exn_str e);
                     StError (format_exc A e)])
  else ret [StError "Please enter some text"].

End App.

(** ** Conditions of the tools, named *)

(** [url.startswith(('http://', 'https://'))] *)
Definition has_scheme (url : string) : bool :=
  startswith "http://" url || startswith "https://" url.

(** the guard under which [_run] keeps the content of the scraping API *)
Definition content_ok (text : string) : bool :=
  (100 <? len (strip text)) && negb (contains "Example Domain" text).

Definition is_post (ev : event) : bool :=
  match ev with EvPost _ => true | _ => false end.
Definition is_get (ev : event) : bool :=
  match ev with EvGet _ => true | _ => false end.
Definition is_kickoff (ev : event) : bool :=
  match ev with EvKickoff _ => true | _ => false end.
Definition is_search (ev : event) : bool :=
  match ev with EvSearch _ => true | _ => false end.

(** how many events of a kind a trace holds *)
Definition count (kind : event -> bool) (t : trace) : nat :=
  List.length (filter kind t).

(** the words a date match can start with *)
Definition date_tokens : list string := "202" :: SearchTool.month_names.

Definition recent_suffix : string := " recent news".
Definition verification_suffix : string :=
  " confirmed OR verified by multiple sources".

(** the queries sent to the search engine, in order *)
Definition searched (t : trace) : list string :=
  flat_map (fun ev => match ev with EvSearch q => [q] | _ => [] end) t.

(** ** Conditions on the text of a page *)

(** every white-space character of [s] is a single space standing alone;
    [after_space] tells that the character before [s] was a space *)
Fixpoint single_spaced (after_space : bool) (s : string) : bool :=
  match s with
  | EmptyString => true
  | String c r =>
      if isspace c
      then Ascii.eqb c " " && negb after_space && single_spaced true r
      else single_spaced false r
  end.

(** none of the noise words occurs in [s], whatever the case of its letters *)
Definition noise_free (s : string) : bool :=
  negb (existsb (fun w => contains (lower w) (lower s))
          FirecrawlTool.noise_words).

(** [s] starts with one of the noise words, whatever the case of its letters *)
Definition starts_with_noise (s : string) : bool :=
  existsb (fun w => String.prefix (lower w) (lower s))
    FirecrawlTool.noise_words.

(** ** The shape of an accepted URL *)

(** [[^\s/$.?#]]: what the first character after the scheme may be *)
Definition host_start (c : ascii) : bool :=
  negb (isspace c || existsb (Ascii.eqb c) ["/"; "$"; "."; "?"; "#"]%char).

(** no character of [s] is white space *)
Fixpoint no_space (s : string) : bool :=
  match s with
  | EmptyString => true
  | String c r => negb (isspace c) && no_space r
  end.

(** a scheme, one character that may start a host, one character that is not
    a line feed, then no white space *)
Definition url_shape (s : string) : Prop :=
  exists scheme c1 c2 rest,
    s = scheme ++ String c1 (String c2 rest)
    /\ (scheme = "http://" \/ scheme = "https://")
    /\ host_start c1 = true
    /\ code c2 <> 10
    /\ no_space rest = true.

(** ** More sample worlds *)

Module Cases.
Import FirecrawlTool.

(** 119 characters of article text *)
Definition story_text : string :=
  "Flood warnings were issued for three rivers on Tuesday after two days of heavy rain, the environment agency said today.".

Definition story_url : string := "https://news.example.org/floods".

(** the scraping API answers with [data] *)
Definition api_world (data : json) : World := {|
  env_firecrawl_api_key := Some "fc-key";
  task_context_url := None;
  requests_post := fun _ =>
    Ret {| post_status_code := 200; post_json := Ret data;
           post_text := EmptyString |};
  requests_get := fun _ => Raise (RequestException "connection refused");
  crew_kickoff := fun _ => Raise (PyException "crew unavailable");
  search_run := fun q => Ret ("results for " ++ q);
  current_year := 2026
|}.

Definition markdown_json : json :=
  JObj [("success", JBool true);
        ("data", JObj [("markdown", JStr story_text)])].

(** the markdown entry is null, the html entry holds the story *)
Definition null_markdown_json : json :=
  JObj [("success", JBool true);
        ("data", JObj [("markdown", JNull); ("html", JStr story_text)])].

(** a task context that names another URL *)
Definition context_world : World := {|
  env_firecrawl_api_key := None;
  task_context_url := Some story_url;
  requests_post := fun _ => Raise (RequestException "connection refused");
  requests_get := fun _ => Raise (RequestException "connection refused");
  crew_kickoff := fun _ => Raise (PyException "crew unavailable");
  search_run := fun q => Ret ("results for " ++ q);
  current_year := 2026
|}.

(** the crew answers every kickoff with an empty list of task outputs *)
Definition silent_crew : World := {|
  env_firecrawl_api_key := None;
  task_context_url := None;
  requests_post := fun _ => Raise (RequestException "connection refused");
  requests_get := fun _ => Raise (RequestException "connection refused");
  crew_kickoff := fun _ => Ret (KickTasks []);
  search_run := fun q => Ret ("results for " ++ q);
  current_year := 2026
|}.

(** the crew returns an object that is not a dict; its [str] is an error *)
Definition object_crew : World := {|
  env_firecrawl_api_key := None;
  task_context_url := None;
  requests_post := fun _ => Raise (RequestException "connection refused");
  requests_get := fun _ => Raise (RequestException "connection refused");
  crew_kickoff := fun _ => Ret (KickOther "Error: the page could not be scraped");
  search_run := fun q => Ret ("results for " ++ q);
  current_year := 2026
|}.

(** 10 characters, to build long messages from *)
Definition ten : string := "0123456789".
Definition fifty : string := ten ++ ten ++ ten ++ ten ++ ten.
Definition five_hundred : string :=
  fifty ++ fifty ++ fifty ++ fifty ++ fifty ++ fifty ++ fifty ++ fifty
  ++ fifty ++ fifty.

(** The extraction stage reports an error for the BBC page, and fetching the
    page fails with a message of 500 characters. *)
Definition unreachable_bbc : World := {|
  env_firecrawl_api_key := None;
  task_context_url := None;
  requests_post := fun _ => Raise (RequestException "connection refused");
  requests_get := fun _ => Raise (RequestException five_hundred);
  crew_kickoff := fun inputs =>
    match inputs with
    | ("url", _) :: _ =>
        Ret (KickTasks ["Error: the page could not be scraped"; "No summary"])
    | _ => Ret (KickTasks ["The text reads like an error message. **Uncertain**"])
    end;
  search_run := fun q => Ret ("results for " ++ q);
  current_year := 2026
|}.

(** the extraction stage writes a long answer with the word Error in it *)
Definition long_output : string := "Error: " ++ five_hundred.

Definition verbose_crew : World := {|
  env_firecrawl_api_key := None;
  task_context_url := None;
  requests_post := fun _ => Raise (RequestException "connection refused");
  requests_get := fun _ => Raise (RequestException "connection refused");
  crew_kickoff := fun _ => Ret (KickTasks [long_output; "Rating: Mostly Credible"]);
  search_run := fun q => Ret ("results for " ++ q);
  current_year := 2026
|}.


(** A BBC page whose article marks its one paragraph with the class
    "paragraph": <article><p class="paragraph">...</p></article> *)
Definition classed_paragraph : Tag := Sample.leaf Sample.bbc_paragraph_text.

Definition classed_article : Tag :=
  mkTag Sample.bbc_paragraph_text "[]"
    (fun selector =>
       if String.eqb selector "p" then [classed_paragraph]
       else if String.eqb selector ".paragraph" then [classed_paragraph]
       else []).

Definition classed_page : Soup :=
  {| soup_root :=
       mkTag EmptyString "[]"
         (fun selector =>
            if String.eqb selector bbc_container_selector then [classed_article]
            else if String.eqb selector "p" then [classed_paragraph]
            else if String.eqb selector ".paragraph" then [classed_paragraph]
            else []);
     soup_body := Some (Sample.leaf Sample.bbc_paragraph_text) |}.

(** a page whose own text crew returns no task output *)
Definition silent_page : App.AppWorld := {|
  App.app_world := Sample.offline;
  App.text_crew_kickoff := fun _ => Ret (KickTasks []);
  App.format_exc := fun e => "Traceback (most recent call last): " ++ exn_str e
|}.

(** the crew's final summary names the phrase with capital letters *)
Definition capital_summary : string :=
  "No Verifiable Claims were identified in the content.".

Definition capital_crew : World := {|
  env_firecrawl_api_key := None;
  task_context_url := None;
  requests_post := fun _ => Raise (RequestException "connection refused");
  requests_get := fun _ => Raise (RequestException "connection refused");
  crew_kickoff := fun _ =>
    Ret (KickTasks ["The council approved the budget on Monday.";
                    capital_summary]);
  search_run := fun q => Ret ("results for " ++ q);
  current_year := 2026
|}.

End Cases.

(** * Properties *)

(** ** The matcher decides the language of the expression *)

Module ReFacts.
Import Re.

Lemma matches_cat_inv (a b : regex) (s : string) :
  matches (Cat a b) s ->
  exists s1 s2, s = s1 ++ s2 /\ matches a s1 /\ matches b s2.
Proof. intros H. inversion H; subst. eauto. Qed.

Lemma matches_or_inv (a b : regex) (s : string) :
  matches (Or a b) s -> matches a s \/ matches b s.
Proof. intros H. inversion H; subst; auto. Qed.

Lemma matches_class_inv (p : ascii -> bool) (s : string) :
  matches (Class p) s -> exists c, s = String c EmptyString /\ p c = true.
Proof. intros H. inversion H; subst. eauto. Qed.

Lemma matches_eps_inv (s : string) : matches Eps s -> s = EmptyString.
Proof. intros H. inversion H. reflexivity. Qed.

Lemma nullable_matches (r : regex) :
  nullable r = true <-> matches r EmptyString.
Proof.
  induction r; simpl.
  - split; [discriminate | intros H; inversion H].
  - split; [intros _; constructor | reflexivity].
  - split; [discriminate | intros H; inversion H].
  - rewrite andb_true_iff, IHr1, IHr2. split.
    + intros [H1 H2]. exact (MCat _ _ _ _ H1 H2).
    + intros H. apply matches_cat_inv in H as (s1 & s2 & Heq & H1 & H2).
      destruct s1; [|discriminate]. simpl in Heq. subst. auto.
  - rewrite orb_true_iff, IHr1, IHr2. split.
    + intros [H|H]; [apply MOrL | apply MOrR]; exact H.
    + apply matches_or_inv.
  - split; [intros _; constructor | reflexivity].
Qed.

Lemma star_cons (a : regex) (c : ascii) (s : string) :
  matches (Star a) (String c s) ->
  exists s1 s2, s = s1 ++ s2 /\ matches a (String c s1) /\ matches (Star a) s2.
Proof.
  intros H. remember (Star a) as r eqn:Hr. remember (String c s) as w eqn:Hw.
  revert s Hw. induction H; try discriminate; intros s Hw.
  injection Hr as ->.
  destruct s1 as [|c1 s1].
  - simpl in Hw. apply IHmatches2; auto.
  - simpl in Hw. injection Hw as -> <-.
    exists s1, s2. auto.
Qed.

Lemma deriv_matches (r : regex) :
  forall c s, matches (deriv c r) s <-> matches r (String c s).
Proof.
  induction r; intros c s; simpl.
  - split; intros H; inversion H.
  - split; intros H; inversion H.
  - destruct (b c) eqn:E; split; intros H.
    + apply matches_eps_inv in H. subst. constructor. exact E.
    + apply matches_class_inv in H as (c' & Heq & _).
      injection Heq as _ ->. constructor.
    + inversion H.
    + apply matches_class_inv in H as (c' & Heq & Hp).
      injection Heq as -> _. congruence.
  - assert (Hcat : matches (Cat (deriv c r1) r2) s <->
                   exists s1 s2, s = s1 ++ s2 /\ matches r1 (String c s1)
                                 /\ matches r2 s2).
    { split.
      - intros H. apply matches_cat_inv in H as (s1 & s2 & -> & H1 & H2).
        exists s1, s2. rewrite <- IHr1. auto.
      - intros (s1 & s2 & -> & H1 & H2). constructor; [apply IHr1|]; auto. }
    destruct (nullable r1) eqn:N.
    + split.
      * intros H. apply matches_or_inv in H as [H|H].
        -- apply Hcat in H as (s1 & s2 & -> & H1 & H2).
           exact (MCat _ _ (String c s1) s2 H1 H2).
        -- apply IHr2 in H. apply nullable_matches in N.
           exact (MCat _ _ EmptyString _ N H).
      * intros H. apply matches_cat_inv in H as (s1 & s2 & Heq & H1 & H2).
        destruct s1 as [|c1 s1]; simpl in Heq.
        -- subst s2. apply MOrR. apply IHr2. exact H2.
        -- injection Heq as -> ->. apply MOrL. apply Hcat. eauto.
    + rewrite Hcat. split.
      * intros (s1 & s2 & -> & H1 & H2).
        exact (MCat _ _ (String c s1) s2 H1 H2).
      * intros H. apply matches_cat_inv in H as (s1 & s2 & Heq & H1 & H2).
        destruct s1 as [|c1 s1]; simpl in Heq.
        -- apply nullable_matches in H1. congruence.
        -- injection Heq as -> ->. eauto.
  - split; intros H; apply matches_or_inv in H as [H|H].
    + apply MOrL, IHr1; auto.
    + apply MOrR, IHr2; auto.
    + apply MOrL, IHr1; auto.
    + apply MOrR, IHr2; auto.
  - split.
    + intros H. apply matches_cat_inv in H as (s1 & s2 & -> & H1 & H2).
      apply IHr in H1. exact (MStarS _ (String c s1) s2 H1 H2).
    + intros H. apply star_cons in H as (s1 & s2 & -> & H1 & H2).
      constructor; [apply IHr|]; auto.
Qed.

Lemma fullmatch_matches (s : string) :
  forall r, fullmatch r s = true <-> matches r s.
Proof.
  induction s as [|c s IH]; intros r; simpl.
  - apply nullable_matches.
  - rewrite IH. apply deriv_matches.
Qed.

Lemma matches_lit (w s : string) : matches (lit w) s -> s = w.
Proof.
  revert s. induction w as [|c w IH]; intros s H; simpl in H.
  - apply matches_eps_inv in H. exact H.
  - apply matches_cat_inv in H as (s1 & s2 & -> & H1 & H2).
    apply matches_class_inv in H1 as (c' & -> & Hc).
    apply Ascii.eqb_eq in Hc. subst.
    simpl. f_equal. apply IH. exact H2.
Qed.

End ReFacts.

(** ** Strings *)

Module StrFacts.

Lemma length_lstrip (s : string) :
  (String.length (lstrip s) <= String.length s)%nat.
Proof.
  induction s as [|c s IH]; simpl; [lia|].
  destruct (isspace c); simpl; lia.
Qed.

Lemma length_rstrip (s : string) :
  (String.length (rstrip s) <= String.length s)%nat.
Proof.
  induction s as [|c s IH]; simpl; [lia|].
  destruct (rstrip s) eqn:E.
  - destruct (isspace c); simpl; lia.
  - simpl in *. lia.
Qed.

Lemma len_strip (s : string) : len (strip s) <= len s.
Proof.
  unfold len, strip.
  pose proof (length_rstrip (lstrip s)). pose proof (length_lstrip s). lia.
Qed.

Lemma length_take (n : nat) (s : string) :
  (String.length (take n s) <= n)%nat.
Proof.
  revert s. induction n as [|n IH]; intros [|c s]; simpl; try lia.
  specialize (IH s). lia.
Qed.

Lemma append_assoc (a b c : string) : (a ++ b) ++ c = a ++ (b ++ c).
Proof. induction a as [|x a IH]; simpl; [reflexivity|]. rewrite IH. reflexivity. Qed.

Lemma len_nonneg (s : string) : 0 <= len s.
Proof. unfold len. lia. Qed.

End StrFacts.

(** ** The monad *)

Ltac unfold_m :=
  unfold bind, ret, raise, call, emit, try_except, FirecrawlTool.lift,
    kickoff, SearchTool.search in *.

(** ** _fallback_scrape *)

Section Fallback.
Import FirecrawlTool.
Variable W : World.

(** [_fallback_scrape] never raises; it logs its entry and one GET. *)
Lemma fallback_scrape_run (url : string) (t : trace) :
  _fallback_scrape W url t
  = (Ret (fallback_value W url), (t ++ [EvFallback url; EvGet url])%list).
Proof.
  unfold fallback_value, result_of, _fallback_scrape. unfold_m. simpl.
  replace (t ++ [EvFallback url; EvGet url])%list
    with ((t ++ [EvFallback url]) ++ [EvGet url])%list
    by (rewrite <- app_assoc; reflexivity).
  destruct (requests_get W url) as [response|e]; [|reflexivity].
  destruct (get_status_code response =? 200); [|reflexivity].
  destruct (contains "example.com" (lower (get_url response))); [reflexivity|].
  destruct (len (article_text url (get_soup response)) <? 100); reflexivity.
Qed.

End Fallback.

Section FallbackResult.
Import FirecrawlTool.
Context (W : World).

Lemma fallback_result (url : string) :
  result_of (_fallback_scrape W url) = Ret (fallback_value W url).
Proof. unfold result_of. rewrite fallback_scrape_run. reflexivity. Qed.

(** C8: when the page was fetched (status 200, not redirected to the
    placeholder domain) and the joined text of the extracted blocks is under
    100 characters, [_fallback_scrape] returns the message
    "Error: Could not extract meaningful content from <url>.", which starts
    with "Error:", and not the short text; the joined text is what it returns
    when that text has at least 100 characters. *)
Theorem fallback_short_text_is_error (url : string) (response : GetResponse) :
  requests_get W url = Ret response ->
  get_status_code response = 200 ->
  contains "example.com" (lower (get_url response)) = false ->
  (len (article_text url (get_soup response)) < 100 ->
     result_of (_fallback_scrape W url)
     = Ret ("Error: Could not extract meaningful content from " ++ url ++ ".")
     /\ startswith "Error:" (fallback_value W url) = true)
  /\ (100 <= len (article_text url (get_soup response)) ->
      result_of (_fallback_scrape W url)
      = Ret (article_text url (get_soup response))).
Proof.
  intros Hget Hstatus Hredirect.
  assert (Hrun : result_of (_fallback_scrape W url)
                 = Ret (if len (article_text url (get_soup response)) <? 100
                        then "Error: Could not extract meaningful content from "
                             ++ url ++ "."
                        else article_text url (get_soup response))).
  { unfold result_of, _fallback_scrape. unfold_m. simpl.
    rewrite Hget, Hstatus. simpl. rewrite Hredirect.
    destruct (len (article_text url (get_soup response)) <? 100); reflexivity. }
  split.
  - intros Hshort. apply Z.ltb_lt in Hshort. rewrite Hshort in Hrun.
    split; [exact Hrun|].
    rewrite fallback_result in Hrun. injection Hrun as ->. reflexivity.
  - intros Hlong. apply Z.ltb_ge in Hlong. rewrite Hlong in Hrun. exact Hrun.
Qed.

End FallbackResult.

(** A page with a dozen characters of text gives the error message. *)
Lemma fallback_short_text_is_error_witness :
  result_of (FirecrawlTool._fallback_scrape Sample.short_page_world Sample.short_page_url)
  = Ret "Error: Could not extract meaningful content from https://news.example.org/short.".
Proof.
  apply (fallback_short_text_is_error Sample.short_page_world
           Sample.short_page_url Sample.short_page_response
           eq_refl eq_refl eq_refl).
  vm_compute. reflexivity.
Defined.

(** ** FirecrawlTool._run *)

Section Run.
Import FirecrawlTool.
Context (W : World).

(** C1: when the scraping API answers with status 200 and a true success
    flag, but the content it returns has at most 100 characters once stripped
    or contains "Example Domain", [_run] enters [_fallback_scrape] exactly
    once and returns what it returns. *)
Theorem run_falls_back_on_poor_content
  (url key text : string) (response : PostResponse) (data success : json) :
  nonempty (effective_url W url) = true ->
  startswith "http://" (effective_url W url)
  || startswith "https://" (effective_url W url) = true ->
  env_firecrawl_api_key W = Some key ->
  nonempty key = true ->
  requests_post W (effective_url W url) = Ret response ->
  post_status_code response = 200 ->
  post_json response = Ret data ->
  py_get data "success" JNull = Ret success ->
  truthy success = true ->
  response_content data = Ret (JStr text) ->
  len (strip text) <= 100 \/ contains "Example Domain" text = true ->
  fallback_calls (events_of (_run W url)) = 1%nat
  /\ result_of (_run W url)
     = result_of (_fallback_scrape W (effective_url W url)).
Proof.
  intros Hurl Hscheme Hkey Hkey' Hpost Hstatus Hjson Hsuccess Htrue Hcontent Hpoor.
  assert (Hrun : _run W url []
                 = (Ret (fallback_value W (effective_url W url)),
                    [EvPost (effective_url W url);
                     EvFallback (effective_url W url);
                     EvGet (effective_url W url)])).
  { unfold _run. rewrite Hurl, Hscheme. simpl.
    unfold try_except. rewrite Hkey, Hkey'. simpl.
    unfold bind at 1. unfold call at 1. rewrite Hpost, Hstatus. simpl.
    unfold bind at 1. unfold lift at 1. rewrite Hjson.
    unfold bind at 1. unfold lift at 1. rewrite Hsuccess, Htrue.
    unfold bind at 1. unfold lift at 1. rewrite Hcontent.
    destruct (truthy (JStr text)).
    - unfold bind, lift. simpl.
      assert (Hguard : (100 <? len (strip text))
                       && negb (contains "Example Domain" text) = false).
      { destruct Hpoor as [Hshort|Hmarker].
        - apply Z.ltb_ge in Hshort. rewrite Hshort. reflexivity.
        - rewrite Hmarker. apply andb_false_r. }
      rewrite Hguard. rewrite fallback_scrape_run. reflexivity.
    - rewrite fallback_scrape_run. reflexivity. }
  unfold events_of, result_of. rewrite Hrun. simpl.
  split; [reflexivity|].
  rewrite fallback_scrape_run. reflexivity.
Qed.

End Run.

(** The API returns the placeholder page: one fallback scrape, whose answer
    (the page is gone) is the result. *)
Lemma run_falls_back_on_poor_content_witness :
  fallback_calls
    (events_of (FirecrawlTool._run Sample.placeholder_world Sample.placeholder_url))
  = 1%nat
  /\ result_of (FirecrawlTool._run Sample.placeholder_world Sample.placeholder_url)
     = Ret "Error: Failed to retrieve content. Status code: 404".
Proof.
  destruct (run_falls_back_on_poor_content Sample.placeholder_world
              Sample.placeholder_url "fc-key" "# Example Domain"
              {| post_status_code := 200;
                 post_json := Ret Sample.placeholder_json;
                 post_text := EmptyString |}
              Sample.placeholder_json (JBool true)
              eq_refl eq_refl eq_refl eq_refl eq_refl eq_refl eq_refl eq_refl
              eq_refl eq_refl (or_intror eq_refl)) as [Hcalls Hres].
  split; [exact Hcalls|].
  rewrite Hres. vm_compute. reflexivity.
Defined.

(** ** No exception leaves the tools or the entry functions *)

Section Totality.
Import FirecrawlTool.
Context (W : World).

Lemma returns_ret {A} (a : A) : returns (ret a).
Proof. intros t. exists a, t. reflexivity. Qed.

(** the catch-all: a [try] whose handler returns, returns *)
Lemma returns_try_except {A} (body : M A) (handler : exn -> M A) :
  (forall e, returns (handler e)) -> returns (try_except body handler).
Proof.
  intros H t. unfold try_except.
  destruct (body t) as [[a|e] t'].
  - exists a, t'. reflexivity.
  - apply H.
Qed.

Lemma returns_fallback_scrape (url : string) : returns (_fallback_scrape W url).
Proof. intros t. rewrite fallback_scrape_run. eauto. Qed.

Lemma returns_run (url : string) : returns (_run W url).
Proof.
  unfold _run.
  destruct (negb (nonempty (effective_url W url))); [apply returns_ret|].
  destruct (negb _); [apply returns_ret|].
  apply returns_try_except. intros _. apply returns_fallback_scrape.
Qed.

Lemma returns_fact_check_text (text : string) : returns (fact_check_text W text).
Proof.
  apply returns_try_except. intros e. apply returns_ret.
Qed.

Lemma returns_run_crew_on_url (url : string) : returns (run_crew_on_url W url).
Proof.
  apply returns_try_except. intros e. apply returns_ret.
Qed.

Lemma returns_fact_check_url (url : string) : returns (fact_check_url W url).
Proof.
  unfold fact_check_url.
  destruct (negb (url_pattern_match url)); [apply returns_ret|].
  destruct (year_search url) as [group1|]; [|apply returns_run_crew_on_url].
  destruct (current_year W <? int_of_digits group1);
    [apply returns_ret | apply returns_run_crew_on_url].
Qed.

(** C7: whatever the URL or text, and whatever the network, the page, the
    crew and the API do (raising included), [fact_check_url] and
    [fact_check_text] return a string and raise nothing; so do the
    extractor's [_run] and [_fallback_scrape]. *)
Theorem entry_functions_always_return :
  (forall url t, exists s t', fact_check_url W url t = (Ret s, t'))
  /\ (forall text t, exists s t', fact_check_text W text t = (Ret s, t'))
  /\ (forall url t, exists s t', _run W url t = (Ret s, t'))
  /\ (forall url t, exists s t', _fallback_scrape W url t = (Ret s, t')).
Proof.
  repeat split; intros x t.
  - apply returns_fact_check_url.
  - apply returns_fact_check_text.
  - apply returns_run.
  - apply returns_fallback_scrape.
Qed.

End Totality.

(** ** The checks on the URL *)

Section UrlChecks.
Context (W : World).

Lemma fact_check_url_invalid (url : string) (t : trace) :
  url_pattern_match url = false ->
  fact_check_url W url t = (Ret invalid_url_message, t).
Proof.
  intros H. unfold fact_check_url. rewrite H. reflexivity.
Qed.

(** C4: a URL that does not match [^https?://[^\s/$.?#].[^\s]*$] gets the
    invalid-format message, and the trace is left as it was: no request is
    sent and the crew is not started. *)
Theorem invalid_url_is_rejected (url : string) (t : trace) :
  url_pattern_match url = false ->
  fact_check_url W url t = (Ret invalid_url_message, t).
Proof. apply fact_check_url_invalid. Qed.

End UrlChecks.

Lemma invalid_url_is_rejected_witness :
  fact_check_url Sample.offline "not-a-url" [] = (Ret invalid_url_message, []).
Proof.
  apply (invalid_url_is_rejected Sample.offline "not-a-url" []).
  vm_compute. reflexivity.
Defined.

(** the empty string is not a URL *)
Lemma empty_url_does_not_match : url_pattern_match EmptyString = false.
Proof. vm_compute. reflexivity. Qed.

Lemma prefix_app (p s r : string) :
  String.prefix p s = true -> String.prefix p (s ++ r) = true.
Proof.
  revert s. induction p as [|a p IH]; intros s.
  { intros _. destruct (s ++ r); reflexivity. }
  destruct s as [|b s]; simpl; [discriminate|].
  destruct (ascii_dec a b); auto.
Qed.

Lemma chomp_app (s s' : string) : Re.chomp s = Some s' -> s = s' ++ newline.
Proof.
  revert s'. induction s as [|c s IH]; intros s' H; simpl in H; [discriminate|].
  destruct s as [|c' s].
  - destruct (code c =? 10) eqn:E; [|discriminate].
    injection H as <-. simpl. f_equal.
    unfold code in E. apply Z.eqb_eq in E.
    rewrite <- (ascii_nat_embedding c).
    replace (nat_of_ascii c) with 10%nat by lia. reflexivity.
  - destruct (Re.chomp (String c' s)) as [r'|]; [|discriminate].
    injection H as <-. simpl. f_equal. apply IH. reflexivity.
Qed.

(** what the pattern accepts starts with a scheme *)
Lemma fullmatch_url_scheme (s : string) :
  Re.fullmatch url_pattern s = true ->
  startswith "http://" s || startswith "https://" s = true.
Proof.
  intros H. apply ReFacts.fullmatch_matches in H. unfold url_pattern in H.
  apply ReFacts.matches_cat_inv in H as (s1 & s2 & -> & H1 & H2).
  apply ReFacts.matches_lit in H1. subst s1.
  apply ReFacts.matches_cat_inv in H2 as (s3 & s4 & -> & H3 & H4).
  apply ReFacts.matches_cat_inv in H4 as (s5 & s6 & -> & H5 & _).
  apply ReFacts.matches_lit in H5. subst s5.
  apply ReFacts.matches_or_inv in H3 as [H3|H3].
  - apply ReFacts.matches_lit in H3. subst s3.
    unfold startswith. simpl. destruct s6; reflexivity.
  - apply ReFacts.matches_eps_inv in H3. subst s3.
    unfold startswith. simpl. destruct s6; reflexivity.
Qed.

(** a string without the scheme does not match, so it is rejected *)
Lemma missing_scheme_does_not_match (url : string) :
  startswith "http://" url || startswith "https://" url = false ->
  url_pattern_match url = false.
Proof.
  intros H. destruct (url_pattern_match url) eqn:E; [|reflexivity].
  unfold url_pattern_match, Re.match_anchored in E.
  apply orb_true_iff in E as [E|E].
  - apply fullmatch_url_scheme in E. congruence.
  - destruct (Re.chomp url) as [s'|] eqn:C; [|discriminate].
    apply chomp_app in C. apply fullmatch_url_scheme in E. subst url.
    unfold startswith in *.
    apply orb_true_iff in E as [E|E];
      apply (prefix_app _ _ newline) in E; rewrite E in H;
      [discriminate | rewrite orb_true_r in H; discriminate].
Qed.

(** ** The orchestrator *)

Section Orchestrator.
Context (W : World).

Lemma fact_check_url_future (url group1 : string) (t : trace) :
  url_pattern_match url = true ->
  year_search url = Some group1 ->
  current_year W < int_of_digits group1 ->
  fact_check_url W url t
  = (Ret (future_date_message (int_of_digits group1)), t).
Proof.
  intros Hmatch Hyear Hfuture. unfold fact_check_url.
  rewrite Hmatch, Hyear. simpl.
  apply Z.ltb_lt in Hfuture. rewrite Hfuture. reflexivity.
Qed.

(** C5, as amended: when the leftmost [/dddd/] of a well-formed URL is a
    year strictly greater than the current year, [fact_check_url] returns the
    future-date message, and the trace is left as it was: the crew is not
    started. *)
Theorem future_year_is_rejected (url group1 : string) (t : trace) :
  url_pattern_match url = true ->
  year_search url = Some group1 ->
  current_year W < int_of_digits group1 ->
  fact_check_url W url t
  = (Ret (future_date_message (int_of_digits group1)), t).
Proof. apply fact_check_url_future. Qed.

Lemma passes_checks_run (url : string) :
  passes_checks W url = true -> fact_check_url W url = run_crew_on_url W url.
Proof.
  unfold passes_checks, fact_check_url. intros H.
  apply andb_true_iff in H as [Hmatch Hyear]. rewrite Hmatch. simpl.
  destruct (year_search url) as [group1|]; [|reflexivity].
  apply negb_true_iff in Hyear. rewrite Hyear. reflexivity.
Qed.

Lemma fact_check_text_run (text : string) (t : trace) :
  fact_check_text W text t
  = (Ret (text_report W text), (t ++ [EvKickoff (text_context text)])%list).
Proof.
  unfold text_report, result_of, fact_check_text. unfold_m. simpl.
  destruct (crew_kickoff W (text_context text)) as [[outs|s]|e]; try reflexivity.
  destruct (rev outs); reflexivity.
Qed.

(** the run of the crew when the extraction stage reported an error *)
Lemma run_crew_extraction_error (url : string) (task_outputs : list string)
  (t : trace) :
  crew_kickoff W (url_context url) = Ret (KickTasks task_outputs) ->
  extraction_error (hd "No content extraction result" task_outputs) = true ->
  run_crew_on_url W url t
  = if is_bbc url then
      if 500 <? len (fallback_value W url) then
        fact_check_text W (fallback_value W url)
          (t ++ [EvKickoff (url_context url); EvFallback url; EvGet url])%list
      else
        (Ret (extraction_failed_message url
                (hd "No content extraction result" task_outputs)),
         (t ++ [EvKickoff (url_context url); EvFallback url; EvGet url])%list)
    else
      (Ret (extraction_failed_message url
              (hd "No content extraction result" task_outputs)),
       (t ++ [EvKickoff (url_context url)])%list).
Proof.
  intros Hkick Herr. unfold run_crew_on_url.
  unfold try_except, bind at 1. unfold kickoff, call. rewrite Hkick, Herr.
  destruct (is_bbc url); [|reflexivity].
  unfold bind. rewrite fallback_scrape_run. rewrite <- app_assoc. simpl.
  destruct (500 <? len (fallback_value W url)); [|reflexivity].
  rewrite fact_check_text_run. reflexivity.
Qed.

Lemma fact_check_url_recovery (url : string) (task_outputs : list string)
  (t : trace) :
  passes_checks W url = true ->
  is_bbc url = true ->
  crew_kickoff W (url_context url) = Ret (KickTasks task_outputs) ->
  extraction_error (hd "No content extraction result" task_outputs) = true ->
  500 < len (fallback_value W url) ->
  fact_check_url W url t
  = fact_check_text W (fallback_value W url)
      (t ++ [EvKickoff (url_context url); EvFallback url; EvGet url])%list.
Proof.
  intros Hpass Hbbc Hkick Herr Hlong.
  rewrite (passes_checks_run url Hpass).
  rewrite (run_crew_extraction_error url task_outputs t Hkick Herr).
  rewrite Hbbc. apply Z.ltb_lt in Hlong. rewrite Hlong. reflexivity.
Qed.



(** C10, as amended: for a BBC URL whose extraction stage reported no error
    and whose final summary does not contain "verifiable claims" in any
    letter case (the summary is lowercased before the test),
    [fact_check_url] returns the report written out below: the URL, the
    summary as overall assessment, the two fixed lines on the source, and the
    final label **Real**, whatever the summary says. *)
Theorem bbc_report_is_real (url : string) (task_outputs : list string)
  (t : trace) :
  passes_checks W url = true ->
  is_bbc url = true ->
  crew_kickoff W (url_context url) = Ret (KickTasks task_outputs) ->
  extraction_error (hd "No content extraction result" task_outputs) = false ->
  contains "verifiable claims"
    (lower (last task_outputs "No results available")) = false ->
  fact_check_url W url t
  = (Ret ("Based on the provided content from " ++ url ++ ":" ++ newline
          ++ "1. Overall Assessment: "
          ++ last task_outputs "No results available" ++ newline
          ++ "2. Source: BBC News, a generally reliable mainstream news source."
          ++ newline
          ++ "3. Recommendations: Information from BBC News is generally reliable, but for complete verification, cross-reference with other reputable sources."
          ++ newline ++ newline ++ "**Real**"),
     (t ++ [EvKickoff (url_context url)])%list).
Proof.
  intros Hpass Hbbc Hkick Hok Hphrase.
  rewrite (passes_checks_run url Hpass). unfold run_crew_on_url.
  unfold try_except, bind, kickoff, call. rewrite Hkick, Hok, Hbbc, Hphrase.
  reflexivity.
Qed.


End Orchestrator.

(** *** Concrete runs of the orchestrator *)

(** C5 fails as stated: the URL is well formed and has the segment [/2099/],
    a year after 2026, but the leftmost [/dddd/] is [/2020/]; the crew is
    started and its summary is returned. *)
Lemma later_future_segment_is_accepted :
  url_pattern_match Sample.archive_url = true
  /\ future_year_segment (current_year Sample.newsroom) Sample.archive_url = true
  /\ fact_check_url Sample.newsroom Sample.archive_url []
     = (Ret "3. Overall Credibility Rating: Not Credible. **Fake**",
        [EvKickoff [("url", Sample.archive_url)]]).
Proof. repeat split; vm_compute; reflexivity. Qed.

Lemma future_year_is_rejected_witness :
  fact_check_url Sample.offline "https://example.com/2099/story" []
  = (Ret "Error: URL contains a future date (2099), which may not be valid. Please check the URL.",
     []).
Proof.
  exact (future_year_is_rejected Sample.offline
           "https://example.com/2099/story" "2099" []
           eq_refl eq_refl eq_refl).
Defined.



(** C10 fails as stated: the summary does not contain "verifiable claims",
    only "Verifiable Claims"; the test is made on the lowercased summary, so
    the summary is returned as it is, without report and without label. *)
Lemma capitalised_phrase_keeps_the_summary :
  passes_checks Cases.capital_crew Sample.bbc_url = true
  /\ is_bbc Sample.bbc_url = true
  /\ crew_kickoff Cases.capital_crew (url_context Sample.bbc_url)
     = Ret (KickTasks ["The council approved the budget on Monday.";
                       Cases.capital_summary])
  /\ extraction_error "The council approved the budget on Monday." = false
  /\ contains "verifiable claims" Cases.capital_summary = false
  /\ fact_check_url Cases.capital_crew Sample.bbc_url []
     = (Ret "No Verifiable Claims were identified in the content.",
        [EvKickoff (url_context Sample.bbc_url)]).
Proof. repeat split; vm_compute; reflexivity. Qed.

(** a summary that rates the article "Not Credible" and ends in **Fake**
    comes back under the label **Real** *)
Lemma bbc_report_is_real_witness :
  result_of (fact_check_url Sample.newsroom Sample.bbc_url)
  = Ret ("Based on the provided content from https://www.bbc.com/news/world-68736364:"
         ++ newline
         ++ "1. Overall Assessment: 3. Overall Credibility Rating: Not Credible. **Fake**"
         ++ newline
         ++ "2. Source: BBC News, a generally reliable mainstream news source."
         ++ newline
         ++ "3. Recommendations: Information from BBC News is generally reliable, but for complete verification, cross-reference with other reputable sources."
         ++ newline ++ newline ++ "**Real**").
Proof.
  unfold result_of.
  rewrite (bbc_report_is_real Sample.newsroom Sample.bbc_url
             Sample.newsroom_outputs []
             eq_refl eq_refl eq_refl eq_refl eq_refl).
  vm_compute. reflexivity.
Defined.



(** ** The scraper's cascade *)

Section CascadeFacts.
Import FirecrawlTool Cascade.

Lemma is_nil_app {A} (l1 l2 : list A) :
  is_nil (l1 ++ l2)%list = is_nil l1 && is_nil l2.
Proof. destruct l1; reflexivity. Qed.

Lemma first_nonempty_cons (blocks : list string) (rest : list (list string)) :
  first_nonempty (blocks :: rest)
  = if is_nil blocks then first_nonempty rest else blocks.
Proof. unfold first_nonempty. simpl. destruct blocks; reflexivity. Qed.

Lemma bbc_extraction_cascade (soup : Soup) :
  bbc_extraction soup []
  = first_nonempty [bbc_selector_blocks soup; bbc_paragraph_blocks soup].
Proof.
  unfold bbc_extraction. cbv zeta.
  rewrite <- app_assoc. fold (bbc_selector_blocks soup).
  fold (bbc_paragraph_blocks soup).
  rewrite !first_nonempty_cons.
  destruct (bbc_selector_blocks soup) as [|b bs] eqn:E; simpl; [|reflexivity].
  destruct (bbc_paragraph_blocks soup); reflexivity.
Qed.

Lemma generic_extraction_blocks (soup : Soup) :
  generic_extraction soup [] = generic_blocks soup.
Proof.
  unfold generic_extraction, generic_blocks, container_blocks, paragraph_blocks.
  destruct (select_one (soup_root soup) main_content_selector); reflexivity.
Qed.

(** the source's chain of [if not content_blocks:] is a cascade *)
Lemma extract_content_blocks_cascade (url : string) (soup : Soup) :
  extract_content_blocks url soup
  = first_nonempty
      [domain_blocks url soup; generic_blocks soup; body_extraction soup].
Proof.
  assert (Hd : (if is_bbc url then bbc_extraction soup [] else [])
               = domain_blocks url soup).
  { unfold domain_blocks. rewrite bbc_extraction_cascade. reflexivity. }
  unfold extract_content_blocks. cbv zeta. rewrite Hd.
  unfold first_nonempty. simpl.
  destruct (domain_blocks url soup); simpl; [|reflexivity].
  rewrite generic_extraction_blocks.
  destruct (generic_blocks soup); simpl; [|reflexivity].
  destruct (body_extraction soup); reflexivity.
Qed.

Lemma body_block_bounded (soup : Soup) :
  exists block, body_extraction soup = [block] /\ len block <= 8000.
Proof.
  unfold body_extraction. eexists. split; [reflexivity|].
  unfold len.
  pose proof (StrFacts.length_take body_limit
    (strip_noise (normalize_ws
       match soup_body soup with
       | Some body => strip (get_text body)
       | None => EmptyString
       end))) as H.
  unfold body_limit in H at 2. lia.
Qed.

Lemma join_single_bounded (block : string) : len (join_blocks [block]) <= len block.
Proof.
  unfold join_blocks. simpl.
  destruct (nonempty (strip block)); simpl.
  - apply StrFacts.len_strip.
  - apply StrFacts.len_nonneg.
Qed.

(** C3, as amended: the blocks the scraper joins are those of the first
    strategy, in a fixed order, that yields any: the domain-specific one (the
    BBC selectors, then the BBC branch's own pass over all paragraphs, for a
    BBC URL only), then the generic one, then whole-body text.  The generic
    strategy reads the paragraphs of the first generic content container when
    the page has one, and all paragraphs of the page only when it has none;
    so the four-strategy cascade of the specification is what the scraper
    computes unless a container exists, yields nothing, and the page has
    paragraphs over the threshold elsewhere.  In the last-resort case the
    joined text has at most 8000 characters. *)
Theorem fallback_cascade (url : string) (soup : Soup) :
  extract_content_blocks url soup
  = first_nonempty
      [domain_blocks url soup; generic_blocks soup; body_extraction soup]
  /\ (domain_blocks url soup <> []
      \/ container_blocks soup <> []
      \/ select_one (soup_root soup) main_content_selector = None
      \/ paragraph_blocks soup = [] ->
      extract_content_blocks url soup = spec_cascade url soup)
  /\ (domain_blocks url soup = [] -> generic_blocks soup = [] ->
      extract_content_blocks url soup = body_extraction soup
      /\ len (article_text url soup) <= 8000).
Proof.
  split; [apply extract_content_blocks_cascade|]. split.
  - intros H. rewrite extract_content_blocks_cascade.
    unfold spec_cascade, generic_blocks, first_nonempty, container_blocks in *.
    simpl.
    destruct (domain_blocks url soup) as [|d ds]; simpl; [|reflexivity].
    destruct (select_one (soup_root soup) main_content_selector)
      as [main_content|]; [|reflexivity].
    destruct (flat_map (long_paragraph 30) (select main_content "p"))
      as [|c cs]; simpl; [|reflexivity].
    destruct H as [H|[H|[H|H]]]; try congruence.
    rewrite H. reflexivity.
  - intros Hd Hg.
    assert (Hb : extract_content_blocks url soup = body_extraction soup).
    { rewrite extract_content_blocks_cascade. unfold first_nonempty.
      simpl. rewrite Hd, Hg. simpl.
      destruct (body_extraction soup); reflexivity. }
    split; [exact Hb|]. unfold article_text. rewrite Hb.
    destruct (body_block_bounded soup) as (block & -> & Hlen).
    pose proof (join_single_bounded block). lia.
Qed.

End CascadeFacts.

(** C3 fails as stated: on a page outside the BBC whose [main] holds no
    paragraph while a paragraph of 150 characters stands beside it, the
    four-strategy cascade would return that paragraph; the scraper skips the
    all-paragraphs strategy and returns the whole-body text. *)
Lemma empty_container_skips_paragraphs :
  FirecrawlTool.extract_content_blocks Sample.council_url Sample.council_page
  = ["Budget vote " ++ Sample.bbc_paragraph_text]
  /\ Cascade.spec_cascade Sample.council_url Sample.council_page
     = [Sample.bbc_paragraph_text]
  /\ FirecrawlTool.extract_content_blocks Sample.council_url Sample.council_page
     <> Cascade.spec_cascade Sample.council_url Sample.council_page.
Proof.
  repeat split; try (vm_compute; reflexivity).
  vm_compute. discriminate.
Qed.

Lemma fallback_cascade_witness :
  len (FirecrawlTool.article_text Sample.council_url Sample.council_page) <= 8000.
Proof.
  apply (fallback_cascade Sample.council_url Sample.council_page);
    vm_compute; reflexivity.
Defined.

(** ** SearchTool._run *)

Section Search.
Import SearchTool.
Context (W : World).

(** C9, as amended: a query with news-source vocabulary ("bbc", "reuters",
    "news" or "reported", whatever the case) that has neither a date the
    pattern knows (202x or a month name, as a word) nor "recent" in it is
    searched with " recent news" appended, and with nothing else.  A query
    with such a date or recency term gets no recency qualifier: it is
    searched as given, and, when it contains "verify" or "fact check", it is
    then searched again with " confirmed OR verified by multiple sources"
    appended and both results are returned. *)
Theorem search_recency_rule (query : string) :
  news_flavoured query = true ->
  (has_date_or_recency query = false ->
     _run W query = search W (query ++ " recent news"))
  /\ (has_date_or_recency query = true -> asks_verification query = false ->
     _run W query = search W query)
  /\ (has_date_or_recency query = true -> asks_verification query = true ->
     _run W query
     = (results1 <- search W query ;;
        results2 <- search W (query ++ " confirmed OR verified by multiple sources") ;;
        ret ("Regular search results:" ++ newline ++ results1 ++ newline
             ++ newline ++ "Verification search results:" ++ newline
             ++ results2))).
Proof.
  unfold news_flavoured, has_date_or_recency, asks_verification.
  intros Hnews. unfold _run. rewrite Hnews.
  repeat split.
  - intros Hnone. apply orb_false_iff in Hnone as [Hdate Hrecent].
    rewrite Hdate, Hrecent. reflexivity.
  - intros Hsome Hplain.
    rewrite <- negb_orb, Hsome, Hplain. reflexivity.
  - intros Hsome Hverify.
    rewrite <- negb_orb, Hsome, Hverify. reflexivity.
Qed.

End Search.

(** C9 fails as stated: "bbc news 2024 verify" has news vocabulary and a
    date, and is not only searched as given: a second search is run with the
    verification terms appended, and the two results are returned together. *)
Lemma dated_query_is_searched_twice :
  news_flavoured "bbc news 2024 verify" = true
  /\ has_date_or_recency "bbc news 2024 verify" = true
  /\ SearchTool._run Sample.offline "bbc news 2024 verify" []
     = (Ret ("Regular search results:" ++ newline
             ++ "results for bbc news 2024 verify" ++ newline ++ newline
             ++ "Verification search results:" ++ newline
             ++ "results for bbc news 2024 verify confirmed OR verified by multiple sources"),
        [EvSearch "bbc news 2024 verify";
         EvSearch "bbc news 2024 verify confirmed OR verified by multiple sources"])
  /\ SearchTool.search Sample.offline "bbc news 2024 verify" []
     = (Ret "results for bbc news 2024 verify",
        [EvSearch "bbc news 2024 verify"])
  /\ SearchTool._run Sample.offline "bbc news 2024 verify" []
     <> SearchTool.search Sample.offline "bbc news 2024 verify" [].
Proof.
  repeat split; try (vm_compute; reflexivity).
  vm_compute. discriminate.
Qed.

Lemma search_recency_rule_witness :
  SearchTool._run Sample.offline "bbc reported floods" []
  = (Ret "results for bbc reported floods recent news",
     [EvSearch "bbc reported floods recent news"]).
Proof.
  rewrite (proj1 (search_recency_rule Sample.offline "bbc reported floods"
                    eq_refl) eq_refl).
  reflexivity.
Defined.

(** ** Further facts about the models *)

(** [year_search] returns the leftmost match: a match at the head wins, and
    without one the search moves one character on. *)
Lemma year_search_head (s y : string) :
  year_at s = Some y -> year_search s = Some y.
Proof.
  intros H. destruct s as [|c r]; [discriminate|].
  change (year_search (String c r))
    with (match year_at (String c r) with
          | Some y => Some y
          | None => year_search r
          end).
  rewrite H. reflexivity.
Qed.

Lemma year_search_next (c : ascii) (r : string) :
  year_at (String c r) = None -> year_search (String c r) = year_search r.
Proof.
  intros H.
  change (year_search (String c r))
    with (match year_at (String c r) with
          | Some y => Some y
          | None => year_search r
          end).
  rewrite H. reflexivity.
Qed.

Lemma digit_value_range (c : ascii) :
  isdigit c = true -> 0 <= digit_value c <= 9.
Proof.
  unfold isdigit, digit_value. intros H.
  apply andb_true_iff in H as [H1 H2].
  apply Z.leb_le in H1, H2. lia.
Qed.

(** the group is four digits, so the year lies between 0 and 9999 *)
Lemma year_at_range (s y : string) :
  year_at s = Some y -> 0 <= int_of_digits y <= 9999.
Proof.
  destruct s as [|l [|a [|b [|c [|d [|r s]]]]]]; try discriminate.
  unfold year_at.
  destruct (Ascii.eqb l "/" && isdigit a && isdigit b && isdigit c
            && isdigit d && Ascii.eqb r "/") eqn:E; [|discriminate].
  intros H. injection H as <-.
  repeat (apply andb_true_iff in E as [E ?]).
  repeat match goal with
         | Hd : isdigit _ = true |- _ => apply digit_value_range in Hd
         end.
  unfold int_of_digits. lia.
Qed.

Lemma year_search_range (s y : string) :
  year_search s = Some y -> 0 <= int_of_digits y <= 9999.
Proof.
  induction s as [|c s IH].
  - discriminate.
  - destruct (year_at (String c s)) as [y'|] eqn:E.
    + rewrite (year_search_head _ _ E). intros H. injection H as <-.
      exact (year_at_range _ _ E).
    + rewrite (year_search_next _ _ E). exact IH.
Qed.

(** In no run does [_run] enter the fallback scraper twice: the handlers of
    its [try] are reached only from a failure before the scraper is called,
    and the scraper itself never raises. *)
Lemma run_fallback_at_most_once (W : World) (url : string) :
  (fallback_calls (events_of (FirecrawlTool._run W url)) <= 1)%nat.
Proof.
  unfold events_of, FirecrawlTool._run.
  unfold try_except, bind, call, ret, FirecrawlTool.lift, fallback_calls.
  repeat first
    [ rewrite fallback_scrape_run
    | match goal with
      | |- context [match ?x with _ => _ end] =>
          match x with
          | context [match _ with _ => _ end] => fail 1
          | _ => destruct x eqn:?
          end
      end ];
  simpl; lia.
Qed.

(** * Further properties of the code *)

(** ** FirecrawlTool._run beyond the fallback on poor content *)

Section RunOutcomes.
Import FirecrawlTool.
Context (W : World).

Lemma has_scheme_nonempty (url : string) :
  has_scheme url = true -> nonempty url = true.
Proof. destruct url; [discriminate | reflexivity]. Qed.

(** X1: for a URL that does not start with http:// or https:// (the empty
    one included), [_run] returns one of its two validation messages and
    leaves the trace as it was: no request is sent and the page is not
    scraped. *)
Theorem run_sends_nothing_without_scheme (url : string) (t : trace) :
  has_scheme (effective_url W url) = false ->
  _run W url t
  = (Ret (if nonempty (effective_url W url)
          then "Error: Invalid URL format. URL must start with http:// or https://"
          else "Error: No URL provided"), t).
Proof.
  unfold has_scheme. intros H. unfold _run.
  destruct (nonempty (effective_url W url)); simpl; [|reflexivity].
  rewrite H. reflexivity.
Qed.

(** X2: when the task context holds a non-empty URL, [_run] works on that
    URL and ignores its argument. *)
Theorem run_prefers_context_url (context_url url : string) :
  task_context_url W = Some context_url ->
  nonempty context_url = true ->
  _run W url = _run W context_url.
Proof.
  intros Hctx Hne. unfold _run, effective_url. rewrite Hctx, Hne.
  reflexivity.
Qed.

(** X3: whatever the scraping API, the network and the page do, a run of
    [_run] on a URL with a scheme ends in one of two ways: it returns content
    of the API that is longer than 100 characters once stripped and free of
    "Example Domain", after one POST and nothing else; or it returns what
    [_fallback_scrape] returns, having entered it exactly once. *)
Theorem run_outcomes (url : string) :
  has_scheme (effective_url W url) = true ->
  (exists text,
      _run W url [] = (Ret text, [EvPost (effective_url W url)])
      /\ content_ok text = true)
  \/ (result_of (_run W url) = Ret (fallback_value W (effective_url W url))
      /\ fallback_calls (events_of (_run W url)) = 1%nat).
Proof.
  intros Hscheme. pose proof (has_scheme_nonempty _ Hscheme) as Hne.
  unfold has_scheme in Hscheme.
  unfold result_of, events_of, _run. rewrite Hne, Hscheme. cbn [negb].
  unfold try_except, bind, call, ret, lift, fallback_calls, content_ok.
  destruct (env_firecrawl_api_key W) as [key|];
    [destruct (nonempty key); cbn [negb]|];
    try (right; rewrite fallback_scrape_run; split; reflexivity).
  destruct (requests_post W (effective_url W url)) as [response|e];
    [|right; rewrite fallback_scrape_run; split; reflexivity].
  destruct (post_status_code response =? 200);
    [|right; rewrite fallback_scrape_run; split; reflexivity].
  destruct (post_json response) as [data|e];
    [|right; rewrite fallback_scrape_run; split; reflexivity].
  destruct (py_get data "success" JNull) as [success|e];
    [|right; rewrite fallback_scrape_run; split; reflexivity].
  destruct (truthy success);
    [|right; rewrite fallback_scrape_run; split; reflexivity].
  destruct (response_content data) as [content|e];
    [|right; rewrite fallback_scrape_run; split; reflexivity].
  destruct (truthy content);
    [|right; rewrite fallback_scrape_run; split; reflexivity].
  destruct content as [|b|n|text|l|l]; simpl py_strip; cbv iota;
    try (right; rewrite fallback_scrape_run; split; reflexivity).
  destruct ((100 <? len (strip text)) && negb (contains "Example Domain" text))
    eqn:Hok.
  - left. exists text. split; [reflexivity | exact Hok].
  - right. rewrite fallback_scrape_run. split; reflexivity.
Qed.

End RunOutcomes.

Lemma run_sends_nothing_without_scheme_witness :
  FirecrawlTool._run Sample.offline "ftp://example.org/file" []
  = (Ret "Error: Invalid URL format. URL must start with http:// or https://",
     []).
Proof.
  exact (run_sends_nothing_without_scheme Sample.offline
           "ftp://example.org/file" [] eq_refl).
Defined.

Lemma run_prefers_context_url_witness :
  FirecrawlTool._run Cases.context_world "https://example.com"
  = FirecrawlTool._run Cases.context_world Cases.story_url.
Proof.
  exact (run_prefers_context_url Cases.context_world Cases.story_url
           "https://example.com" eq_refl eq_refl).
Defined.

Lemma run_outcomes_witness :
  (exists text,
      FirecrawlTool._run (Cases.api_world Cases.markdown_json) Cases.story_url []
      = (Ret text, [EvPost Cases.story_url])
      /\ content_ok text = true)
  \/ (result_of (FirecrawlTool._run (Cases.api_world Cases.markdown_json)
                   Cases.story_url)
      = Ret (fallback_value (Cases.api_world Cases.markdown_json) Cases.story_url)
      /\ fallback_calls
           (events_of (FirecrawlTool._run (Cases.api_world Cases.markdown_json)
                         Cases.story_url)) = 1%nat).
Proof.
  apply (run_outcomes (Cases.api_world Cases.markdown_json) Cases.story_url).
  vm_compute. reflexivity.
Defined.

Section RunPaths.
Import FirecrawlTool.
Context (W : World).

Lemma content_ok_truthy (text : string) :
  content_ok text = true -> truthy (JStr text) = true.
Proof.
  unfold content_ok. intros H. apply andb_true_iff in H as [H _].
  destruct text; [discriminate | reflexivity].
Qed.

(** X4: when the scraping API answers 200 with a true success flag and a
    text of more than 100 stripped characters without "Example Domain",
    [_run] returns that text unchanged; the POST is its only effect, the page
    itself is not fetched. *)
Theorem run_returns_api_content
  (url key text : string) (response : PostResponse) (data success : json)
  (t : trace) :
  has_scheme (effective_url W url) = true ->
  env_firecrawl_api_key W = Some key ->
  nonempty key = true ->
  requests_post W (effective_url W url) = Ret response ->
  post_status_code response = 200 ->
  post_json response = Ret data ->
  py_get data "success" JNull = Ret success ->
  truthy success = true ->
  response_content data = Ret (JStr text) ->
  content_ok text = true ->
  _run W url t = (Ret text, (t ++ [EvPost (effective_url W url)])%list).
Proof.
  intros Hscheme Hkey Hkey' Hpost Hstatus Hjson Hsuccess Htrue Hcontent Hok.
  pose proof (has_scheme_nonempty _ Hscheme) as Hne.
  pose proof (content_ok_truthy _ Hok) as Htext.
  unfold has_scheme in Hscheme. unfold content_ok in Hok.
  unfold _run. rewrite Hne, Hscheme. cbn [negb].
  unfold try_except. rewrite Hkey, Hkey'. cbn [negb].
  unfold bind, call, lift, ret.
  rewrite Hpost, Hstatus, Hjson, Hsuccess, Htrue, Hcontent, Htext.
  cbn [py_strip Z.eqb Pos.eqb]. rewrite Hok. reflexivity.
Qed.

(** X5: when the [data] object of the API's answer has a [markdown] entry
    that is not a string (null, a number, a list), the [html] entry is not
    looked at: [_run] goes to the fallback scraper, once, and returns its
    result. *)
Theorem run_ignores_html_beside_bad_markdown
  (url key : string) (response : PostResponse) (data success markdown : json)
  (entries : list (string * json)) :
  has_scheme (effective_url W url) = true ->
  env_firecrawl_api_key W = Some key ->
  nonempty key = true ->
  requests_post W (effective_url W url) = Ret response ->
  post_status_code response = 200 ->
  post_json response = Ret data ->
  py_get data "success" JNull = Ret success ->
  truthy success = true ->
  py_get data "data" (JObj []) = Ret (JObj entries) ->
  assoc "markdown" entries = Some markdown ->
  (forall text, markdown <> JStr text) ->
  _run W url []
  = (Ret (fallback_value W (effective_url W url)),
     [EvPost (effective_url W url); EvFallback (effective_url W url);
      EvGet (effective_url W url)]).
Proof.
  intros Hscheme Hkey Hkey' Hpost Hstatus Hjson Hsuccess Htrue Hdata Hmd Hbad.
  pose proof (has_scheme_nonempty _ Hscheme) as Hne.
  unfold has_scheme in Hscheme.
  assert (Hcontent : response_content data = Ret markdown).
  { unfold response_content. rewrite Hdata. unfold py_get.
    destruct (assoc "html" entries); rewrite Hmd; reflexivity. }
  unfold _run. rewrite Hne, Hscheme. cbn [negb].
  unfold try_except. rewrite Hkey, Hkey'. cbn [negb].
  unfold bind, call, lift, ret.
  rewrite Hpost, Hstatus, Hjson, Hsuccess, Htrue, Hcontent.
  cbn [Z.eqb Pos.eqb].
  destruct markdown as [|b|n|text|l|l];
    try (exfalso; exact (Hbad _ eq_refl));
    cbn [py_strip truthy];
    repeat first
      [ rewrite fallback_scrape_run
      | match goal with
        | |- context [match ?x with _ => _ end] =>
            match x with
            | context [match _ with _ => _ end] => fail 1
            | _ => destruct x
            end
        end ];
    reflexivity.
Qed.

(** X6: without an API key in the environment (unset or empty), [_run] sends
    no POST: it scrapes the page itself and returns that result. *)
Theorem run_without_api_key (url : string) (t : trace) :
  has_scheme (effective_url W url) = true ->
  env_firecrawl_api_key W = None
  \/ env_firecrawl_api_key W = Some EmptyString ->
  _run W url t
  = (Ret (fallback_value W (effective_url W url)),
     (t ++ [EvFallback (effective_url W url); EvGet (effective_url W url)])%list).
Proof.
  intros Hscheme Hkey.
  pose proof (has_scheme_nonempty _ Hscheme) as Hne.
  unfold has_scheme in Hscheme.
  unfold _run. rewrite Hne, Hscheme. cbn [negb]. unfold try_except.
  destruct Hkey as [-> | ->]; cbn [nonempty negb];
    rewrite fallback_scrape_run; reflexivity.
Qed.

(** X7: what [_fallback_scrape] returns either starts with "Error", or is
    the text joined from the blocks of a page that was fetched, and then it
    has at least 100 characters. *)
Theorem fallback_outcomes (url : string) :
  startswith "Error" (fallback_value W url) = true
  \/ exists response,
       requests_get W url = Ret response
       /\ fallback_value W url = article_text url (get_soup response)
       /\ 100 <= len (fallback_value W url).
Proof.
  unfold fallback_value, result_of, _fallback_scrape.
  unfold bind, emit, try_except, call, ret.
  destruct (requests_get W url) as [response|e]; [|left; reflexivity].
  destruct (get_status_code response =? 200); [|left; reflexivity].
  destruct (contains "example.com" (lower (get_url response)));
    [left; reflexivity|].
  destruct (len (article_text url (get_soup response)) <? 100) eqn:E;
    [left; reflexivity|].
  right. exists response. cbn [fst]. apply Z.ltb_ge in E. auto.
Qed.

End RunPaths.

Lemma run_returns_api_content_witness :
  FirecrawlTool._run (Cases.api_world Cases.markdown_json) Cases.story_url []
  = (Ret Cases.story_text, [EvPost Cases.story_url]).
Proof.
  exact (run_returns_api_content (Cases.api_world Cases.markdown_json)
           Cases.story_url "fc-key" Cases.story_text
           {| post_status_code := 200; post_json := Ret Cases.markdown_json;
              post_text := EmptyString |}
           Cases.markdown_json (JBool true) []
           eq_refl eq_refl eq_refl eq_refl eq_refl eq_refl eq_refl eq_refl
           eq_refl eq_refl).
Defined.

Lemma run_ignores_html_beside_bad_markdown_witness :
  result_of (FirecrawlTool._run (Cases.api_world Cases.null_markdown_json)
               Cases.story_url)
  = Ret "Error scraping URL https://news.example.org/floods: connection refused".
Proof.
  unfold result_of.
  rewrite (run_ignores_html_beside_bad_markdown
             (Cases.api_world Cases.null_markdown_json)
             Cases.story_url "fc-key"
             {| post_status_code := 200;
                post_json := Ret Cases.null_markdown_json;
                post_text := EmptyString |}
             Cases.null_markdown_json (JBool true) JNull
             [("markdown", JNull); ("html", JStr Cases.story_text)]
             eq_refl eq_refl eq_refl eq_refl eq_refl eq_refl eq_refl eq_refl
             eq_refl eq_refl
             (fun text H => match H in (_ = j)
                                  return (match j with JNull => True | _ => False end)
                            with eq_refl => I end)).
  vm_compute. reflexivity.
Defined.

Lemma run_without_api_key_witness :
  FirecrawlTool._run Sample.offline Cases.story_url []
  = (Ret "Error scraping URL https://news.example.org/floods: connection refused",
     [EvFallback Cases.story_url; EvGet Cases.story_url]).
Proof.
  rewrite (run_without_api_key Sample.offline Cases.story_url []
             eq_refl (or_introl eq_refl)).
  vm_compute. reflexivity.
Defined.

(** ** What the URL pattern accepts *)

Section UrlShape.
Import Re ReFacts.

Lemma matches_lit_self (w : string) : matches (lit w) w.
Proof.
  induction w as [|c w IH]; simpl; [constructor|].
  apply (MCat _ _ (String c EmptyString) w); [|exact IH].
  constructor. apply Ascii.eqb_refl.
Qed.

Lemma star_class_no_space (s : string) :
  matches (Star (Class (fun c => negb (isspace c)))) s <-> no_space s = true.
Proof.
  split.
  - intros H.
    remember (Star (Class (fun c => negb (isspace c)))) as r eqn:Hr.
    induction H; try discriminate.
    + reflexivity.
    + injection Hr as ->.
      apply matches_class_inv in H as (c & -> & Hc).
      simpl. rewrite Hc. apply IHmatches2. reflexivity.
  - induction s as [|c s IH]; simpl; intros H; [constructor|].
    apply andb_true_iff in H as [Hc Hs].
    apply (MStarS _ (String c EmptyString) s); [|apply IH; exact Hs].
    constructor. exact Hc.
Qed.

Lemma fullmatch_url_shape (s : string) :
  fullmatch url_pattern s = true <-> url_shape s.
Proof.
  rewrite fullmatch_matches. unfold url_pattern, url_shape. split.
  - intros H.
    apply matches_cat_inv in H as (s1 & s2 & -> & H1 & H).
    apply matches_lit in H1. subst s1.
    apply matches_cat_inv in H as (s3 & s4 & -> & H3 & H).
    apply matches_cat_inv in H as (s5 & s6 & -> & H5 & H).
    apply matches_lit in H5. subst s5.
    apply matches_cat_inv in H as (s7 & s8 & -> & H7 & H).
    apply matches_class_inv in H7 as (c1 & -> & Hc1).
    apply matches_cat_inv in H as (s9 & rest & -> & H9 & Hrest).
    apply matches_class_inv in H9 as (c2 & -> & Hc2).
    apply star_class_no_space in Hrest.
    apply negb_true_iff, Z.eqb_neq in Hc2.
    apply matches_or_inv in H3 as [H3|H3].
    + apply matches_lit in H3. subst s3.
      exists "https://", c1, c2, rest. repeat split; auto.
    + apply matches_eps_inv in H3. subst s3.
      exists "http://", c1, c2, rest. repeat split; auto.
  - intros (scheme & c1 & c2 & rest & -> & Hscheme & Hc1 & Hc2 & Hrest).
    assert (Htail : matches
              (Cat (Class (fun c =>
                      negb (isspace c
                            || existsb (Ascii.eqb c)
                                 ["/"; "$"; "."; "?"; "#"]%char)))
                 (Cat dot (Star (Class (fun c => negb (isspace c))))))
              (String c1 (String c2 rest))).
    { apply (MCat _ _ (String c1 EmptyString) (String c2 rest)).
      - constructor. exact Hc1.
      - apply (MCat _ _ (String c2 EmptyString) rest).
        + constructor. apply negb_true_iff, Z.eqb_neq. exact Hc2.
        + apply star_class_no_space. exact Hrest. }
    destruct Hscheme as [-> | ->].
    + apply (MCat _ _ "http" ("://" ++ String c1 (String c2 rest)));
        [apply matches_lit_self|].
      apply (MCat _ _ EmptyString ("://" ++ String c1 (String c2 rest)));
        [apply MOrR; constructor|].
      apply (MCat _ _ "://" (String c1 (String c2 rest)));
        [apply matches_lit_self | exact Htail].
    + apply (MCat _ _ "http" ("s://" ++ String c1 (String c2 rest)));
        [apply matches_lit_self|].
      apply (MCat _ _ "s" ("://" ++ String c1 (String c2 rest)));
        [apply MOrL; apply matches_lit_self|].
      apply (MCat _ _ "://" (String c1 (String c2 rest)));
        [apply matches_lit_self | exact Htail].
Qed.

Lemma chomp_newline (s : string) : chomp (s ++ newline) = Some s.
Proof.
  induction s as [|c s IH]; [reflexivity|].
  change (chomp (String c (s ++ newline))
          = Some (String c s)).
  destruct (s ++ newline) as [|c' r] eqn:E.
  - destruct s; discriminate.
  - simpl in *. rewrite IH. reflexivity.
Qed.

Lemma chomp_spec (s s' : string) : chomp s = Some s' <-> s = s' ++ newline.
Proof.
  split; [apply chomp_app|]. intros ->. apply chomp_newline.
Qed.

Lemma url_match_shape (url : string) :
  url_pattern_match url = true
  <-> url_shape url \/ exists core, url = core ++ newline /\ url_shape core.
Proof.
  unfold url_pattern_match, match_anchored.
  rewrite orb_true_iff, fullmatch_url_shape. split.
  - intros [H|H]; [left; exact H|].
    destruct (chomp url) as [core|] eqn:E; [|discriminate].
    right. exists core. split.
    + apply chomp_spec. exact E.
    + apply fullmatch_url_shape. exact H.
  - intros [H|(core & -> & H)]; [left; exact H|].
    right. rewrite chomp_newline. apply fullmatch_url_shape. exact H.
Qed.

(** X8: the URLs [fact_check_url] lets through are exactly the strings made
    of the scheme http:// or https://, one character that is neither white
    space nor one of / $ . ? #, one character that is not a line feed, and
    then characters that are not white space; and those strings with one
    line feed appended. *)
Theorem accepted_urls (url : string) :
  url_pattern_match url = true
  <-> url_shape url \/ exists core, url = core ++ newline /\ url_shape core.
Proof. apply url_match_shape. Qed.

Lemma prefix_refl (s : string) : String.prefix s s = true.
Proof.
  induction s as [|c s IH]; [reflexivity|]. simpl.
  destruct (ascii_dec c c); [exact IH | contradiction].
Qed.

Lemma contains_app_r (a n : string) : contains n (a ++ n) = true.
Proof.
  induction a as [|c a IH]; simpl.
  - destruct n; simpl; [reflexivity|].
    destruct (ascii_dec a a); [|contradiction].
    rewrite prefix_refl. reflexivity.
  - rewrite IH. apply orb_true_r.
Qed.

Lemma len_app (a b : string) : len (a ++ b) = len a + len b.
Proof.
  unfold len. induction a as [|c a IH]; simpl String.length; [lia|].
  rewrite !Nat2Z.inj_succ. simpl in IH. lia.
Qed.

Lemma url_shape_length (s : string) : url_shape s -> 9 <= len s.
Proof.
  intros (scheme & c1 & c2 & rest & -> & Hscheme & _).
  rewrite len_app. pose proof (StrFacts.len_nonneg rest) as Hrest.
  assert (Hlen : len (String c1 (String c2 rest)) = 2 + len rest).
  { unfold len. simpl String.length. lia. }
  rewrite Hlen.
  destruct Hscheme as [-> | ->];
    [change (len "http://") with 7 | change (len "https://") with 8]; lia.
Qed.

Lemma url_shape_scheme (s : string) : url_shape s -> has_scheme s = true.
Proof.
  intros (scheme & c1 & c2 & rest & -> & Hscheme & _).
  destruct Hscheme as [-> | ->]; reflexivity.
Qed.

(** X9: a URL that [fact_check_url] lets through has at least nine
    characters: the scheme and two more. *)
Theorem accepted_url_length (url : string) :
  url_pattern_match url = true -> 9 <= len url.
Proof.
  intros H. apply url_match_shape in H as [H|(core & -> & H)].
  - apply url_shape_length. exact H.
  - rewrite len_app. apply url_shape_length in H.
    pose proof (StrFacts.len_nonneg newline). lia.
Qed.

(** X10: a line feed at the end does not make a URL invalid: when a URL
    without line feed is let through, so is that URL followed by one. *)
Theorem trailing_newline_is_accepted (url : string) :
  url_pattern_match url = true ->
  contains newline url = false ->
  url_pattern_match (url ++ newline) = true.
Proof.
  intros H Hnl. apply url_match_shape. right. exists url. split; [reflexivity|].
  apply url_match_shape in H as [H|(core & -> & H)]; [exact H|].
  rewrite contains_app_r in Hnl. discriminate.
Qed.

(** X11: a URL that [fact_check_url] lets through is never turned away by
    the format check of [FirecrawlTool._run], provided the task context does
    not replace it: it is not empty and starts with http:// or https://. *)
Theorem accepted_url_passes_scraper_check (W : World) (url : string) :
  url_pattern_match url = true ->
  task_context_url W = None ->
  nonempty (FirecrawlTool.effective_url W url) = true
  /\ has_scheme (FirecrawlTool.effective_url W url) = true.
Proof.
  intros H Hctx. unfold FirecrawlTool.effective_url. rewrite Hctx.
  assert (Hs : has_scheme url = true).
  { apply url_match_shape in H as [H|(core & -> & H)].
    - apply url_shape_scheme. exact H.
    - apply url_shape_scheme in H. unfold has_scheme, startswith in *.
      apply orb_true_iff in H as [H|H];
        apply (prefix_app _ _ newline) in H; rewrite H;
        [reflexivity | apply orb_true_r]. }
  split; [|exact Hs]. destruct url; [discriminate | reflexivity].
Qed.

(** X12: a string that does not start with http:// or https:// is answered
    with the invalid-format message, and nothing else happens. *)
Theorem missing_scheme_is_rejected (W : World) (url : string) (t : trace) :
  has_scheme url = false ->
  fact_check_url W url t = (Ret invalid_url_message, t).
Proof.
  intros H. apply fact_check_url_invalid.
  apply missing_scheme_does_not_match. exact H.
Qed.

End UrlShape.

Lemma accepted_url_length_witness : 9 <= len "http://ab".
Proof. apply (accepted_url_length "http://ab"). vm_compute. reflexivity. Defined.

Lemma trailing_newline_is_accepted_witness :
  url_pattern_match ("https://www.bbc.com/news" ++ newline) = true.
Proof.
  apply (trailing_newline_is_accepted "https://www.bbc.com/news");
    vm_compute; reflexivity.
Defined.

Lemma accepted_url_passes_scraper_check_witness :
  nonempty (FirecrawlTool.effective_url Sample.offline Sample.bbc_url) = true
  /\ has_scheme (FirecrawlTool.effective_url Sample.offline Sample.bbc_url) = true.
Proof.
  apply (accepted_url_passes_scraper_check Sample.offline Sample.bbc_url);
    vm_compute; reflexivity.
Defined.

Lemma missing_scheme_is_rejected_witness :
  fact_check_url Sample.offline "www.bbc.com/news" []
  = (Ret invalid_url_message, []).
Proof.
  apply (missing_scheme_is_rejected Sample.offline "www.bbc.com/news" []).
  vm_compute. reflexivity.
Defined.

(** ** The entry functions beyond the claims *)

Section EntryMore.
Context (W : World).

(** the events a run of the crew on a URL adds to the trace *)
Lemma run_crew_trace (url : string) (t : trace) :
  exists rest,
    snd (run_crew_on_url W url t)
    = (t ++ EvKickoff (url_context url) :: rest)%list
    /\ (rest = []
        \/ rest = [EvFallback url; EvGet url]
        \/ exists text,
             rest = [EvFallback url; EvGet url; EvKickoff (text_context text)]).
Proof.
  destruct (crew_kickoff W (url_context url)) as [[outs|s]|e] eqn:Hkick.
  - destruct (extraction_error (hd "No content extraction result" outs))
      eqn:Herr.
    + rewrite (run_crew_extraction_error W url outs t Hkick Herr).
      destruct (is_bbc url).
      * destruct (500 <? len (fallback_value W url)).
        -- rewrite fact_check_text_run. rewrite <- app_assoc. simpl.
           eexists. split; [reflexivity|]. right. right. eauto.
        -- eexists. split; [reflexivity|]. right. left. reflexivity.
      * exists []. split; [reflexivity|]. left. reflexivity.
    + exists []. split; [|left; reflexivity].
      unfold run_crew_on_url, try_except, bind, kickoff, call, ret.
      rewrite Hkick, Herr. destruct (is_bbc url && _); reflexivity.
  - exists []. split; [|left; reflexivity].
    unfold run_crew_on_url, try_except, bind, kickoff, call, ret.
    rewrite Hkick. reflexivity.
  - exists []. split; [|left; reflexivity].
    unfold run_crew_on_url, try_except, bind, kickoff, call, ret.
    rewrite Hkick. reflexivity.
Qed.

Lemma fact_check_url_trace (url : string) :
  events_of (fact_check_url W url)
  = if passes_checks W url then events_of (run_crew_on_url W url) else [].
Proof.
  unfold events_of, fact_check_url, passes_checks.
  destruct (url_pattern_match url); [|reflexivity]. simpl.
  destruct (year_search url) as [group1|]; [|reflexivity].
  destruct (current_year W <? int_of_digits group1); reflexivity.
Qed.

(** X13: in any world and for any URL, a call of [fact_check_url] starts the
    crew at most twice, fetches the page itself at most once (one entry into
    the fallback scraper at most), and by itself sends no request to the
    scraping API and no search query. *)
Theorem fact_check_url_effects (url : string) :
  (count is_kickoff (events_of (fact_check_url W url)) <= 2)%nat
  /\ (count is_get (events_of (fact_check_url W url)) <= 1)%nat
  /\ (fallback_calls (events_of (fact_check_url W url)) <= 1)%nat
  /\ count is_post (events_of (fact_check_url W url)) = 0%nat
  /\ count is_search (events_of (fact_check_url W url)) = 0%nat.
Proof.
  rewrite fact_check_url_trace. unfold count, fallback_calls.
  destruct (passes_checks W url); [|simpl; repeat split; lia].
  unfold events_of.
  destruct (run_crew_trace url []) as (rest & -> & [-> | [-> | (text & ->)]]);
    simpl; repeat split; lia.
Qed.

(** X14: the crew is started exactly when the URL passes the two checks:
    then the first event of the call is the kickoff of the crew with the
    inputs built from the URL; otherwise the call has no effect at all. *)
Theorem crew_started_iff_checks_pass (url : string) :
  if passes_checks W url
  then exists rest,
         events_of (fact_check_url W url)
         = EvKickoff (url_context url) :: rest
  else events_of (fact_check_url W url) = [].
Proof.
  rewrite fact_check_url_trace.
  destruct (passes_checks W url); [|reflexivity].
  unfold events_of.
  destruct (run_crew_trace url []) as (rest & -> & _).
  exists rest. reflexivity.
Qed.

(** X15: when the crew returns something that is not a dict with
    "tasks_output", [fact_check_url] returns its [str] as it is: neither the
    extraction-error check nor the BBC report is applied to it. *)
Theorem non_dict_result_is_returned_verbatim (url s : string) (t : trace) :
  passes_checks W url = true ->
  crew_kickoff W (url_context url) = Ret (KickOther s) ->
  fact_check_url W url t = (Ret s, (t ++ [EvKickoff (url_context url)])%list).
Proof.
  intros Hpass Hkick. rewrite (passes_checks_run W url Hpass).
  unfold run_crew_on_url, try_except, bind, kickoff, call, ret.
  rewrite Hkick. reflexivity.
Qed.

(** X16: an empty list of task outputs is handled differently by the two
    entry functions: [fact_check_url] answers "No results available" (inside
    the BBC report, labelled **Real**, for a BBC URL), while
    [fact_check_text] answers "Error: list index out of range". *)
Theorem empty_task_outputs (url text : string) :
  passes_checks W url = true ->
  crew_kickoff W (url_context url) = Ret (KickTasks []) ->
  crew_kickoff W (text_context text) = Ret (KickTasks []) ->
  result_of (fact_check_url W url)
  = Ret (if is_bbc url then bbc_report url "No results available"
         else "No results available")
  /\ result_of (fact_check_text W text)
     = Ret "Error: list index out of range".
Proof.
  intros Hpass Hurl Htext. split; unfold result_of.
  - rewrite (passes_checks_run W url Hpass).
    unfold run_crew_on_url, try_except, bind, kickoff, call, ret.
    rewrite Hurl. simpl. destruct (is_bbc url); reflexivity.
  - unfold fact_check_text, try_except, bind, kickoff, call, ret, raise.
    rewrite Htext. reflexivity.
Qed.

(** X17: the recovery path of a BBC URL looks at the length of what the
    fallback scraper returned, not at what it is: when fetching the page
    raises and the scraper's error message has more than 500 characters, that
    message is handed to [fact_check_text] as if it were the article. *)
Theorem long_scrape_error_is_fact_checked
  (url : string) (task_outputs : list string) (e : exn) (t : trace) :
  passes_checks W url = true ->
  is_bbc url = true ->
  crew_kickoff W (url_context url) = Ret (KickTasks task_outputs) ->
  extraction_error (hd "No content extraction result" task_outputs) = true ->
  requests_get W url = Raise e ->
  500 < len ("Error scraping URL " ++ url ++ ": " ++ exn_str e) ->
  fact_check_url W url t
  = fact_check_text W ("Error scraping URL " ++ url ++ ": " ++ exn_str e)
      (t ++ [EvKickoff (url_context url); EvFallback url; EvGet url])%list.
Proof.
  intros Hpass Hbbc Hkick Herr Hget Hlong.
  assert (Hvalue : fallback_value W url
                   = "Error scraping URL " ++ url ++ ": " ++ exn_str e).
  { unfold fallback_value, result_of, FirecrawlTool._fallback_scrape.
    unfold bind, emit, try_except, call, ret. rewrite Hget. reflexivity. }
  rewrite <- Hvalue in *.
  apply fact_check_url_recovery with (task_outputs := task_outputs); auto.
Qed.

(** X18: for a URL outside the BBC, an extraction error ends the run at
    once: the page is not fetched again, and the message carries the URL and
    the extraction stage's own text. *)
Theorem extraction_failure_elsewhere_is_final
  (url : string) (task_outputs : list string) (t : trace) :
  passes_checks W url = true ->
  is_bbc url = false ->
  crew_kickoff W (url_context url) = Ret (KickTasks task_outputs) ->
  extraction_error (hd "No content extraction result" task_outputs) = true ->
  fact_check_url W url t
  = (Ret ("Failed to extract content from URL: " ++ url ++ ". "
          ++ hd "No content extraction result" task_outputs),
     (t ++ [EvKickoff [("url", url)]])%list).
Proof.
  intros Hpass Hbbc Hkick Herr. rewrite (passes_checks_run W url Hpass).
  rewrite (run_crew_extraction_error W url task_outputs t Hkick Herr).
  unfold url_context. rewrite Hbbc. reflexivity.
Qed.

(** X19: an answer of the extraction stage that has 500 characters or more
    is never taken for a failure, whatever it says: the run goes on and, for
    a URL outside the BBC, returns the last task output. *)
Theorem long_extraction_output_is_no_error
  (url : string) (task_outputs : list string) (t : trace) :
  passes_checks W url = true ->
  is_bbc url = false ->
  crew_kickoff W (url_context url) = Ret (KickTasks task_outputs) ->
  500 <= len (hd "No content extraction result" task_outputs) ->
  fact_check_url W url t
  = (Ret (last task_outputs "No results available"),
     (t ++ [EvKickoff (url_context url)])%list).
Proof.
  intros Hpass Hbbc Hkick Hlong. rewrite (passes_checks_run W url Hpass).
  unfold run_crew_on_url, try_except, bind, kickoff, call, ret.
  rewrite Hkick. unfold extraction_error.
  apply Z.ltb_ge in Hlong. rewrite Hlong, andb_false_r, Hbbc. reflexivity.
Qed.

Lemma last_rev {A} (l : list A) (x d : A) (r : list A) :
  rev l = x :: r -> last l d = x.
Proof.
  intros H. rewrite <- (rev_involutive l), H. simpl.
  apply last_last.
Qed.

(** X20: [fact_check_text] hands any text, the empty one included, to the
    crew without looking at it, starts the crew once, and returns the last
    task output unchanged, whatever the earlier outputs say. *)
Theorem text_run_returns_last_output
  (text : string) (task_outputs : list string) (t : trace) :
  crew_kickoff W (text_context text) = Ret (KickTasks task_outputs) ->
  task_outputs <> [] ->
  fact_check_text W text t
  = (Ret (last task_outputs EmptyString),
     (t ++ [EvKickoff [("cleaned_content", text); ("task", "text_analysis")]])%list).
Proof.
  intros Hkick Hne.
  unfold fact_check_text, try_except, bind, kickoff, call, ret, raise.
  unfold text_context in *. rewrite Hkick.
  destruct (rev task_outputs) as [|x r] eqn:E.
  - apply (f_equal (@rev string)) in E. rewrite rev_involutive in E.
    contradiction.
  - rewrite (last_rev _ x EmptyString r E). reflexivity.
Qed.

End EntryMore.

Lemma non_dict_result_is_returned_verbatim_witness :
  fact_check_url Cases.object_crew Sample.bbc_url []
  = (Ret "Error: the page could not be scraped",
     [EvKickoff (url_context Sample.bbc_url)]).
Proof.
  exact (non_dict_result_is_returned_verbatim Cases.object_crew Sample.bbc_url
           "Error: the page could not be scraped" [] eq_refl eq_refl).
Defined.

Lemma empty_task_outputs_witness :
  result_of (fact_check_url Cases.silent_crew Sample.bbc_url)
  = Ret (bbc_report Sample.bbc_url "No results available")
  /\ result_of (fact_check_text Cases.silent_crew EmptyString)
     = Ret "Error: list index out of range".
Proof.
  exact (empty_task_outputs Cases.silent_crew Sample.bbc_url EmptyString
           eq_refl eq_refl eq_refl).
Defined.

Lemma long_scrape_error_is_fact_checked_witness :
  result_of (fact_check_url Cases.unreachable_bbc Sample.bbc_url)
  = Ret "The text reads like an error message. **Uncertain**".
Proof.
  unfold result_of.
  rewrite (long_scrape_error_is_fact_checked Cases.unreachable_bbc
             Sample.bbc_url
             ["Error: the page could not be scraped"; "No summary"]
             (RequestException Cases.five_hundred) []
             eq_refl eq_refl eq_refl eq_refl eq_refl eq_refl).
  vm_compute. reflexivity.
Defined.

Lemma extraction_failure_elsewhere_is_final_witness :
  fact_check_url Sample.bbc_recovery_world Cases.story_url []
  = (Ret "Failed to extract content from URL: https://news.example.org/floods. Error: the page could not be scraped",
     [EvKickoff [("url", Cases.story_url)]]).
Proof.
  exact (extraction_failure_elsewhere_is_final Sample.bbc_recovery_world
           Cases.story_url
           ["Error: the page could not be scraped"; "No summary"] []
           eq_refl eq_refl eq_refl eq_refl).
Defined.

Lemma long_extraction_output_is_no_error_witness :
  fact_check_url Cases.verbose_crew Cases.story_url []
  = (Ret "Rating: Mostly Credible", [EvKickoff (url_context Cases.story_url)]).
Proof.
  apply (long_extraction_output_is_no_error Cases.verbose_crew Cases.story_url
           [Cases.long_output; "Rating: Mostly Credible"] []
           eq_refl eq_refl eq_refl).
  vm_compute. discriminate.
Defined.

Lemma text_run_returns_last_output_witness :
  fact_check_text Sample.newsroom EmptyString []
  = (Ret "3. Overall Credibility Rating: Not Credible. **Fake**",
     [EvKickoff [("cleaned_content", EmptyString); ("task", "text_analysis")]]).
Proof.
  apply (text_run_returns_last_output Sample.newsroom EmptyString
           Sample.newsroom_outputs [] eq_refl).
  discriminate.
Defined.

(** ** SearchTool._run beyond the recency rule *)

Section SearchMore.
Import SearchTool.
Context (W : World).

Ltac run_search :=
  unfold events_of, result_of, _run, search, bind, call, ret;
  repeat match goal with
         | |- context [if ?c then _ else _] => destruct c
         end;
  repeat match goal with
         | |- context [search_run W ?q] =>
             let E := fresh "E" in destruct (search_run W q) eqn:E
         end;
  simpl.

(** X21: whatever the query, [_run] sends the search engine one of three
    sequences of queries: the query with " recent news" appended; the query
    as given; or the query as given and then the query with the verification
    terms appended.  Nothing else is ever searched. *)
Theorem search_plans (query : string) :
  searched (events_of (_run W query)) = [query ++ recent_suffix]
  \/ searched (events_of (_run W query)) = [query]
  \/ searched (events_of (_run W query))
     = [query; query ++ verification_suffix].
Proof.
  unfold recent_suffix, verification_suffix. run_search; auto.
Qed.

(** X22: [_run] handles no exception: it raises exactly when the last query
    it sent raised, and with that exception. *)
Theorem search_exceptions_propagate (query : string) (e : exn) :
  result_of (_run W query) = Raise e
  <-> search_run W (last (searched (events_of (_run W query))) query) = Raise e.
Proof.
  run_search; split; intros H; simpl in *; congruence.
Qed.

End SearchMore.

Section DateTokens.
Import SearchTool.

Lemma alt_lit_prefix (w s r : string) :
  alt_lit w s = Some r -> String.prefix w s = true.
Proof.
  revert s. induction w as [|a w IH]; intros s H.
  - destruct s; reflexivity.
  - destruct s as [|b s]; simpl in H; [discriminate|].
    destruct (Ascii.eqb a b) eqn:E; [|discriminate].
    apply Ascii.eqb_eq in E. subst b. simpl.
    destruct (ascii_dec a a); [|contradiction]. apply IH. exact H.
Qed.

Lemma alt_202d_prefix (s r : string) :
  alt_202d s = Some r -> String.prefix "202" s = true.
Proof.
  unfold alt_202d. intros H.
  destruct s as [|a s]; [discriminate|].
  destruct a as [[] [] [] [] [] [] [] []]; try discriminate.
  destruct s as [|b s]; [discriminate|].
  destruct b as [[] [] [] [] [] [] [] []]; try discriminate.
  destruct s as [|c s]; [discriminate|].
  destruct c as [[] [] [] [] [] [] [] []]; try discriminate.
  destruct s; reflexivity.
Qed.

Lemma contains_of_prefix (p s : string) :
  String.prefix p s = true -> contains p s = true.
Proof.
  intros H. destruct s as [|c s].
  - destruct p; [reflexivity | discriminate].
  - change (contains p (String c s))
      with (String.prefix p (String c s) || contains p s).
    rewrite H. reflexivity.
Qed.

Lemma contains_cons (p : string) (c : ascii) (s : string) :
  contains p s = true -> contains p (String c s) = true.
Proof.
  intros H.
  change (contains p (String c s))
    with (String.prefix p (String c s) || contains p s).
  rewrite H. apply orb_true_r.
Qed.

Lemma date_at_token (prev : option ascii) (s : string) :
  date_at prev s = true ->
  existsb (fun token => String.prefix token s) date_tokens = true.
Proof.
  unfold date_at, date_alternatives, date_tokens. intros H.
  apply andb_true_iff in H as [_ H].
  apply existsb_exists in H as (alt & Hin & Halt).
  destruct (alt s) as [rest|] eqn:E; [|discriminate].
  apply existsb_exists. destruct Hin as [<- | Hin].
  - exists "202". split; [left; reflexivity|].
    apply (alt_202d_prefix s rest). exact E.
  - apply in_map_iff in Hin as (month & <- & Hmonth).
    exists month. split; [right; exact Hmonth|].
    apply (alt_lit_prefix month s rest). exact E.
Qed.

(** X23: a text is taken to carry a date only if "202" or the name of a
    month occurs in it: without any of these thirteen words the date
    pattern finds nothing. *)
Theorem date_match_needs_token (s : string) :
  date_match s = true ->
  existsb (fun token => contains token s) date_tokens = true.
Proof.
  unfold date_match. generalize (@None ascii) as prev.
  induction s as [|c s IH]; intros prev H; simpl in H.
  - rewrite orb_false_r in H. apply date_at_token in H.
    apply existsb_exists in H as (token & Hin & Hp).
    apply existsb_exists. exists token. split; [exact Hin|].
    apply contains_of_prefix. exact Hp.
  - apply orb_true_iff in H as [H|H].
    + apply date_at_token in H.
      apply existsb_exists in H as (token & Hin & Hp).
      apply existsb_exists. exists token. split; [exact Hin|].
      apply contains_of_prefix. exact Hp.
    + apply IH in H. apply existsb_exists in H as (token & Hin & Hc).
      apply existsb_exists. exists token. split; [exact Hin|].
      apply contains_cons. exact Hc.
Qed.

End DateTokens.

Lemma date_match_needs_token_witness :
  existsb (fun token => contains token "floods in march 2019") date_tokens = true.
Proof.
  apply (date_match_needs_token "floods in march 2019"). vm_compute. reflexivity.
Defined.

(** ** The whole-body text *)

Section BodyText.
Import FirecrawlTool.

Lemma collapse_single_spaced (s : string) :
  forall b, single_spaced b (collapse_ws b s) = true.
Proof.
  induction s as [|c s IH]; intros b; simpl; [reflexivity|].
  destruct (isspace c) eqn:E.
  - destruct b; [apply IH|]. simpl. rewrite IH. reflexivity.
  - simpl. rewrite E. apply IH.
Qed.

Lemma collapse_fixed (s : string) :
  forall b, single_spaced b s = true -> collapse_ws b s = s.
Proof.
  induction s as [|c s IH]; intros b H; simpl in *; [reflexivity|].
  destruct (isspace c) eqn:E.
  - apply andb_true_iff in H as [H Hs]. apply andb_true_iff in H as [Hc Hb].
    apply Ascii.eqb_eq in Hc. apply negb_true_iff in Hb. subst c b.
    rewrite (IH true Hs). reflexivity.
  - rewrite (IH false H). reflexivity.
Qed.

Lemma length_collapse (s : string) :
  forall b, (String.length (collapse_ws b s) <= String.length s)%nat.
Proof.
  induction s as [|c s IH]; intros b; simpl; [lia|].
  destruct (isspace c); [destruct b|]; simpl;
    [specialize (IH true) | specialize (IH true) | specialize (IH false)]; lia.
Qed.

(** X24: in the text [re.sub(r'\s+', ' ', ...)] gives, every white-space
    character is a space and no two spaces are adjacent; the text is not
    longer than the one it came from, and the substitution changes nothing
    when applied again. *)
Theorem normalize_ws_single_spaces (s : string) :
  single_spaced false (normalize_ws s) = true
  /\ len (normalize_ws s) <= len s
  /\ normalize_ws (normalize_ws s) = normalize_ws s.
Proof.
  unfold normalize_ws. split; [apply collapse_single_spaced|]. split.
  - unfold len. pose proof (length_collapse s false). lia.
  - apply collapse_fixed. apply collapse_single_spaced.
Qed.

Lemma existsb_false {A} (f : A -> bool) (l : list A) :
  existsb f l = false -> forall x, In x l -> f x = false.
Proof.
  intros H x Hin. destruct (f x) eqn:E; [|reflexivity].
  assert (existsb f l = true) by (apply existsb_exists; eauto). congruence.
Qed.

Lemma prefix_false_of_contains (p s : string) :
  contains p s = false -> String.prefix p s = false.
Proof.
  intros H. destruct (String.prefix p s) eqn:E; [|reflexivity].
  apply contains_of_prefix in E. congruence.
Qed.

Lemma contains_tail_false (p : string) (c : ascii) (s : string) :
  contains p (String c s) = false -> contains p s = false.
Proof.
  intros H. destruct (contains p s) eqn:E; [|reflexivity].
  apply (contains_cons p c) in E. congruence.
Qed.

Lemma noise_match_none (s : string) :
  (forall w, In w noise_words -> String.prefix (lower w) (lower s) = false) ->
  noise_match s = None.
Proof.
  intros H. unfold noise_match.
  generalize noise_words, H. clear H.
  induction l as [|w rest IH]; intros H; [reflexivity|].
  rewrite (H w (or_introl eq_refl)). apply IH.
  intros w' Hin. apply H. right. exact Hin.
Qed.

Lemma sub_noise_clean (s : string) :
  (forall w, In w noise_words -> contains (lower w) (lower s) = false) ->
  sub_noise O s = s.
Proof.
  induction s as [|c s IH]; intros H; [reflexivity|].
  change (sub_noise O (String c s))
    with (match noise_match (String c s) with
          | Some (S k) => sub_noise k s
          | _ => String c (sub_noise O s)
          end).
  rewrite noise_match_none.
  - rewrite IH; [reflexivity|].
    intros w Hin. apply (contains_tail_false _ (lower_char c)). apply (H w Hin).
  - intros w Hin. apply prefix_false_of_contains. apply (H w Hin).
Qed.

Lemma length_sub_noise (s : string) :
  forall k, (String.length (sub_noise k s) <= String.length s)%nat.
Proof.
  induction s as [|c s IH]; intros k; [simpl; lia|].
  change (sub_noise k (String c s))
    with (match k with
          | S k' => sub_noise k' s
          | O => match noise_match (String c s) with
                 | Some (S k') => sub_noise k' s
                 | _ => String c (sub_noise O s)
                 end
          end).
  destruct k as [|k']; [|specialize (IH k'); simpl; lia].
  destruct (noise_match (String c s)) as [[|k']|]; simpl;
    try (specialize (IH O); lia).
  specialize (IH k'). lia.
Qed.

(** X25: removing the noise sentences never makes the text longer, and a
    text in which none of the five noise words occurs, in any letter case,
    comes back unchanged. *)
Theorem strip_noise_keeps_clean_text (s : string) :
  len (strip_noise s) <= len s
  /\ (noise_free s = true -> strip_noise s = s).
Proof.
  unfold strip_noise. split.
  - unfold len. pose proof (length_sub_noise s O). lia.
  - unfold noise_free. intros H. apply negb_true_iff in H.
    apply sub_noise_clean. apply (existsb_false _ _ H).
Qed.

End BodyText.

Lemma strip_noise_keeps_clean_text_witness :
  FirecrawlTool.strip_noise Cases.story_text = Cases.story_text.
Proof.
  apply (strip_noise_keeps_clean_text Cases.story_text).
  vm_compute. reflexivity.
Defined.

Section NoiseTail.
Import FirecrawlTool.

Lemma prefix_length (a b : string) :
  String.prefix a b = true -> (String.length a <= String.length b)%nat.
Proof.
  revert b. induction a as [|x a IH]; intros b H; simpl; [lia|].
  destruct b as [|y b]; [discriminate|]. simpl in H.
  destruct (ascii_dec x y); [|discriminate].
  specialize (IH b H). simpl. lia.
Qed.

Lemma length_lower (s : string) : String.length (lower s) = String.length s.
Proof. induction s as [|c s IH]; simpl; [reflexivity | rewrite IH; reflexivity]. Qed.

Lemma length_drop (k : nat) (s : string) :
  String.length (drop k s) = (String.length s - k)%nat.
Proof.
  revert s. induction k as [|k IH]; intros s; simpl.
  - destruct s; simpl; lia.
  - destruct s as [|c s]; simpl; [reflexivity | apply IH].
Qed.

Lemma contains_drop_false (p : string) (k : nat) (s : string) :
  contains p s = false -> contains p (drop k s) = false.
Proof.
  revert s. induction k as [|k IH]; intros s H.
  - destruct s; exact H.
  - destruct s as [|c s]; [exact H|]. simpl drop.
    apply IH. apply (contains_tail_false p c). exact H.
Qed.

Lemma head_is_not (p : ascii) (c : ascii) (s : string) :
  contains (String p EmptyString) (String c s) = false -> c <> p.
Proof.
  intros H ->. 
  change (contains (String p EmptyString) (String p s))
    with (String.prefix (String p EmptyString) (String p s)
          || contains (String p EmptyString) s) in H.
  simpl in H. destruct (ascii_dec p p); [|contradiction].
  destruct s; discriminate.
Qed.

(** without full stop and line feed, the lazy tail runs to the end *)
Lemma noise_tail_to_end (s : string) :
  contains "." s = false -> contains newline s = false ->
  noise_tail s = Some (String.length s).
Proof.
  induction s as [|c s IH]; intros Hdot Hnl; [reflexivity|].
  pose proof (head_is_not _ _ _ Hdot) as Hc1.
  pose proof (head_is_not _ _ _ Hnl) as Hc2.
  simpl.
  destruct (Ascii.eqb c ".") eqn:E1; [apply Ascii.eqb_eq in E1; contradiction|].
  destruct (code c =? 10) eqn:E2.
  - exfalso. apply Hc2. apply Z.eqb_eq in E2. unfold code in E2.
    rewrite <- (ascii_nat_embedding c).
    replace (nat_of_ascii c) with 10%nat by lia. reflexivity.
  - rewrite IH; [reflexivity | |].
    + apply (contains_tail_false _ c). exact Hdot.
    + apply (contains_tail_false _ c). exact Hnl.
Qed.

Lemma noise_match_to_end (s : string) :
  starts_with_noise s = true ->
  contains "." s = false -> contains newline s = false ->
  noise_match s = Some (String.length s).
Proof.
  unfold starts_with_noise, noise_match. intros Hstart Hdot Hnl.
  revert Hstart. generalize noise_words.
  induction l as [|w rest IH]; intros Hstart; [discriminate|].
  simpl in Hstart.
  destruct (String.prefix (lower w) (lower s)) eqn:E.
  - rewrite noise_tail_to_end by (apply contains_drop_false; assumption).
    rewrite length_drop. apply prefix_length in E.
    rewrite !length_lower in E. f_equal. lia.
  - apply IH. exact Hstart.
Qed.

Lemma sub_noise_skips_all (s : string) :
  forall k, (String.length s <= k)%nat -> sub_noise k s = EmptyString.
Proof.
  induction s as [|c s IH]; intros k H; [reflexivity|].
  destruct k as [|k]; [simpl in H; lia|].
  simpl in *. apply IH. lia.
Qed.

(** X26: a text that starts with one of the noise words (in any letter
    case) and holds neither a full stop nor a line feed is deleted whole: the
    sentence to delete runs to the end of the text. *)
Theorem strip_noise_without_full_stop (s : string) :
  starts_with_noise s = true ->
  contains "." s = false ->
  contains newline s = false ->
  strip_noise s = EmptyString.
Proof.
  intros Hstart Hdot Hnl. unfold strip_noise.
  pose proof (noise_match_to_end s Hstart Hdot Hnl) as Hm.
  destruct s as [|c s]; [reflexivity|].
  change (sub_noise O (String c s))
    with (match noise_match (String c s) with
          | Some (S k) => sub_noise k s
          | _ => String c (sub_noise O s)
          end).
  rewrite Hm. simpl String.length. cbv iota.
  apply sub_noise_skips_all. lia.
Qed.

End NoiseTail.

Lemma strip_noise_without_full_stop_witness :
  FirecrawlTool.strip_noise
    "Cookie settings and the whole article that follows without a full stop"
  = EmptyString.
Proof.
  apply (strip_noise_without_full_stop
           "Cookie settings and the whole article that follows without a full stop");
    vm_compute; reflexivity.
Defined.

(** ** The BBC branch of the scraper *)

Section BbcBlocks.
Import FirecrawlTool Cascade.


Lemma bbc_blocks_used (url : string) (soup : Soup) :
  is_bbc url = true ->
  bbc_selector_blocks soup <> [] ->
  extract_content_blocks url soup = bbc_selector_blocks soup.
Proof.
  intros Hbbc Hne. rewrite extract_content_blocks_cascade.
  unfold domain_blocks. rewrite Hbbc. unfold first_nonempty. simpl.
  destruct (bbc_selector_blocks soup); [contradiction | reflexivity].
Qed.





Lemma count_occ_flat_map_member {A} (f : A -> list string) (l : list A)
  (x : A) (text : string) :
  In x l ->
  (count_occ string_dec (f x) text
   <= count_occ string_dec (flat_map f l) text)%nat.
Proof.
  intros Hin. apply in_split in Hin as (l1 & l2 & ->).
  rewrite flat_map_app. simpl. rewrite !count_occ_app. lia.
Qed.

Lemma count_occ_positive (l : list string) (text : string) :
  In text l -> (1 <= count_occ string_dec l text)%nat.
Proof. intros H. apply (count_occ_In string_dec) in H. lia. Qed.

(** X28: the BBC branch does not remove repetitions: a paragraph that one
    container returns both for the selector "p" and for the selector
    ".paragraph" is put into the blocks twice. *)
Theorem bbc_paragraph_is_repeated
  (url : string) (soup : Soup) (container p : Tag) (text : string) :
  is_bbc url = true ->
  In container (select (soup_root soup) bbc_container_selector) ->
  In p (select container "p") ->
  In p (select container ".paragraph") ->
  bbc_paragraph p = [text] ->
  (2 <= count_occ string_dec (extract_content_blocks url soup) text)%nat.
Proof.
  intros Hbbc Hcontainer Hp Hclass Htext.
  assert (Hin : forall selector,
             In p (select container selector) ->
             (1 <= count_occ string_dec
                     (flat_map bbc_paragraph (select container selector)) text)%nat).
  { intros selector H. apply count_occ_positive. apply in_flat_map.
    exists p. split; [exact H|]. rewrite Htext. left. reflexivity. }
  assert (Hcount : (2 <= count_occ string_dec (bbc_selector_blocks soup) text)%nat).
  { unfold bbc_selector_blocks. rewrite !count_occ_app.
    pose proof (count_occ_flat_map_member
                  (fun container =>
                     flat_map (fun p_selector =>
                       flat_map bbc_paragraph (select container p_selector))
                       p_selectors)
                  _ container text Hcontainer) as H.
    cbv beta in H. unfold p_selectors in H at 1. cbn [flat_map] in H.
    rewrite !count_occ_app in H.
    pose proof (Hin "p" Hp). pose proof (Hin ".paragraph" Hclass).
    lia. }
  rewrite bbc_blocks_used; [exact Hcount | exact Hbbc|].
  intros Hnil. rewrite Hnil in Hcount. simpl in Hcount. lia.
Qed.

End BbcBlocks.


Lemma bbc_paragraph_is_repeated_witness :
  (2 <= count_occ string_dec
          (FirecrawlTool.extract_content_blocks Sample.bbc_url Cases.classed_page)
          Sample.bbc_paragraph_text)%nat.
Proof.
  apply (bbc_paragraph_is_repeated Sample.bbc_url Cases.classed_page
           Cases.classed_article Cases.classed_paragraph
           Sample.bbc_paragraph_text eq_refl).
  - vm_compute. left. reflexivity.
  - vm_compute. left. reflexivity.
  - vm_compute. left. reflexivity.
  - vm_compute. reflexivity.
Defined.

(** ** app.py *)

Section Buttons.
Import App.
Context (A : AppWorld).

(** X29: the handler of the URL button never raises and shows exactly one
    message.  For an empty input it is the error "Please enter a URL" and
    [fact_check_url] is not called; otherwise it is what [fact_check_url]
    returns, shown with [st.write] also when that is an error message. *)
Theorem url_button_shows_one_message (url : string) (t : trace) :
  exists s t',
    url_button A url t
    = (Ret [if nonempty url then StWrite s else StError "Please enter a URL"],
       t')
    /\ (nonempty url = true -> fact_check_url (app_world A) url t = (Ret s, t'))
    /\ (nonempty url = false -> t' = t).
Proof.
  unfold url_button. destruct (nonempty url).
  - destruct (returns_fact_check_url (app_world A) url t) as (s & t' & H).
    exists s, t'. unfold bind, ret. rewrite H.
    split; [reflexivity|]. split; [intros _; reflexivity | discriminate].
  - exists EmptyString, t.
    split; [reflexivity|]. split; [discriminate | intros _; reflexivity].
Qed.

(** X30: the handler of the text button never raises and never uses
    [fact_check_text] or the network: the trace is left as it was.  It shows
    "Please enter some text" for an empty input; otherwise either one
    [st.write], or two [st.error] lines of which the first is "Error
    analyzing text: " followed by the exception's text, as when its crew
    returns no task output. *)
Theorem text_button_outcomes (text : string) (t : trace) :
  exists out,
    text_button A text t = (Ret out, t)
    /\ (nonempty text = false -> out = [StError "Please enter some text"])
    /\ (nonempty text = true ->
        (exists s, out = [StWrite s])
        \/ exists e, out = [StError ("Error analyzing text: " ++ exn_str e);
                            StError (format_exc A e)])
    /\ (nonempty text = true ->
        text_crew_kickoff A [("cleaned_content", text)] = Ret (KickTasks []) ->
        out = [StError "Error analyzing text: list index out of range";
               StError (format_exc A (PyException "list index out of range"))]).
Proof.
  unfold text_button. destruct (nonempty text).
  - unfold try_except, bind, FirecrawlTool.lift, ret, raise.
    destruct (text_crew_kickoff A [("cleaned_content", text)])
      as [[outs|s]|e] eqn:E.
    + destruct (rev outs) as [|final_summary r] eqn:R.
      * eexists. split; [reflexivity|]. split; [discriminate|]. split.
        -- intros _. right. eexists. reflexivity.
        -- intros _ _. reflexivity.
      * eexists. split; [reflexivity|]. split; [discriminate|]. split.
        -- intros _. left. eexists. reflexivity.
        -- intros _ H. injection H as ->. discriminate.
    + eexists. split; [reflexivity|]. split; [discriminate|]. split.
      * intros _. left. eexists. reflexivity.
      * intros _ H. discriminate.
    + eexists. split; [reflexivity|]. split; [discriminate|]. split.
      * intros _. right. eexists. reflexivity.
      * intros _ H. discriminate.
  - eexists. split; [reflexivity|]. split; [reflexivity|].
    split; intros H; discriminate.
Qed.

End Buttons.

(** an invalid URL is shown with st.write, an empty list of task outputs
    with st.error *)
Lemma url_button_shows_one_message_witness :
  App.url_button Cases.silent_page "not-a-url" []
  = (Ret [App.StWrite invalid_url_message], []).
Proof.
  destruct (url_button_shows_one_message Cases.silent_page "not-a-url" [])
    as (s & t' & Hrun & Hcall & _).
  rewrite Hrun. specialize (Hcall eq_refl). vm_compute in Hcall.
  injection Hcall as <- <-. reflexivity.
Defined.

Lemma text_button_outcomes_witness :
  exists out,
    App.text_button Cases.silent_page "Water boils at 100 degrees." []
    = (Ret out, [])
    /\ out = [App.StError "Error analyzing text: list index out of range";
              App.StError
                "Traceback (most recent call last): list index out of range"].
Proof.
  destruct (text_button_outcomes Cases.silent_page
              "Water boils at 100 degrees." []) as (out & Hrun & _ & _ & Hempty).
  exists out. split; [exact Hrun|]. apply Hempty; reflexivity.
Defined.
